(** * PGC-DHA client: authentication context and student attendance view

    A shallow embedding of the two stateful pieces of the client:

    - the authentication provider ([authReducer], [initializeAuth], [login],
      [register], [logout], [updateProfile], the password and session
      helpers, [hasPermission]);
    - the student attendance view ([loadAccessibleClasses], [markAttendance],
      [markAllPresent], [getAttendanceStats]).

    JavaScript control flow (exceptions, [try]/[catch]/[finally], awaited
    collaborator calls, reducer dispatches) is modelled by a small
    state-and-exception monad.  The collaborators that live outside the
    source tree (the services module, the HTTP hook) are parameters. *)

From stdpp Require Import base strings list gmap fin_maps.
From Stdlib Require Import ZArith.

Local Open Scope string_scope.

(** ** JavaScript completions *)

(** An [Error] object as far as the code inspects it: [error.message] and
    [error.status].  [None] stands for an absent ([undefined]) property. *)
Record JsError := mkError {
  err_message : option string;
  err_status : option Z
}.

(** [new Error(msg)] *)
Definition new_Error (msg : string) : JsError :=
  {| err_message := Some msg; err_status := None |}.

(** The [TypeError] raised by reading property [prop] of [undefined]. *)
Definition TypeError_reading (prop : string) : JsError :=
  new_Error ("Cannot read properties of undefined (reading '" ++ prop ++ "')").

(** How a statement, or an awaited promise, completes. *)
Inductive completion (A : Type) : Type :=
| Normal (a : A)
| Throw (e : JsError).
Arguments Normal {A} a.
Arguments Throw {A} e.

(** Computations over a store [S] that may throw. *)
Definition Js (S A : Type) : Type := S → completion A * S.

Definition js_ret {S A} (a : A) : Js S A := λ s, (Normal a, s).

Definition js_bind {S A B} (f : A → Js S B) (m : Js S A) : Js S B :=
  λ s, match m s with
       | (Normal a, s') => f a s'
       | (Throw e, s') => (Throw e, s')
       end.

#[export] Instance Js_ret {S} : MRet (Js S) := @js_ret S.
#[export] Instance Js_bind {S} : MBind (Js S) := @js_bind S.

(** [throw e] *)
Definition throw {S A} (e : JsError) : Js S A := λ s, (Throw e, s).

(** [await p], for a promise that settles as [p]. *)
Definition await {S A} (p : completion A) : Js S A := λ s, (p, s).

(** [try { body } catch (e) { handler e }] *)
Definition try_catch {S A} (body : Js S A) (handler : JsError → Js S A) : Js S A :=
  λ s, match body s with
       | (Normal a, s') => (Normal a, s')
       | (Throw e, s') => handler e s'
       end.

(** [try { body } finally { fin }]: [fin] always runs; an exception raised by
    [fin] replaces the completion of [body]. *)
Definition try_finally {S A} (body : Js S A) (fin : Js S unit) : Js S A :=
  λ s, match body s with
       | (r, s') =>
           match fin s' with
           | (Normal _, s'') => (r, s'')
           | (Throw e, s'') => (Throw e, s'')
           end
       end.

Definition modify {S} (f : S → S) : Js S unit := λ s, (Normal (), f s).
Definition gets {S A} (f : S → A) : Js S A := λ s, (Normal (f s), s).

(** [for (const x of xs) { body x }] *)
Fixpoint for_of {S A} (xs : list A) (body : A → Js S unit) : Js S unit :=
  match xs with
  | [] => mret ()
  | x :: rest => body x ;; for_of rest body
  end.

(** ** JavaScript strings *)

(** [hay.includes(needle)] *)
Fixpoint includes (hay needle : string) : bool :=
  String.prefix needle hay ||
  match hay with
  | EmptyString => false
  | String _ rest => includes rest needle
  end.

(** Truthiness of a string-or-null value: [null] and [''] are falsy. *)
Definition truthy_string (s : option string) : bool :=
  match s with
  | Some s => negb (String.eqb s "")
  | None => false
  end.

(** [s || dflt] for a string-or-undefined [s]. *)
Definition or_string (s : option string) (dflt : string) : string :=
  if truthy_string s then default dflt s else dflt.

(** A flat object of string properties, for payloads the code only forwards. *)
Definition Payload : Type := list (string * string).

(** What a collaborator resolves with: [{ success, data | message }]. *)
Module Response.
Record t (D : Type) := mk {
  success : bool;
  data : option D;
  message : option string
}.
Arguments mk {D} success data message.
Arguments success {D} _.
Arguments data {D} _.
Arguments message {D} _.
End Response.

(** What an action function returns:
  [{ success: true, data }] or [{ success: false, error }]. *)
Module ActionResult.
Record t (D : Type) := mk {
  success : bool;
  data : option D;
  error : option string
}.
Arguments mk {D} success data error.
Arguments success {D} _.
Arguments data {D} _.
Arguments error {D} _.

(** [{ success: true, data: d }] *)
Definition succeeded {D} (d : option D) : t D := mk true d None.
(** [{ success: false, error: msg }] *)
Definition failed {D} (msg : string) : t D := mk false None (Some msg).
End ActionResult.

(** ** The authentication provider *)

(** An entry of the permission list; the code reads [perm.name]. *)
Record Permission := mkPermission { name : string }.

(** A user record as the provider reads it: [user.role] and
    [user.permissions] ([None] when the property is missing or [null]); the
    remaining properties are carried along untouched. *)
Module User.
Record t := mk {
  role : option string;
  permissions : option (list Permission);
  others : Payload
}.
End User.

(** [response.data] of [authAPI.updateProfile]: the properties to merge into
    the user.  The outer [option] of a field tells whether the key is there. *)
Record ProfilePatch := mkPatch {
  patch_role : option (option string);
  patch_permissions : option (option (list Permission));
  patch_others : Payload
}.

(** [{ ...user, ...patch }]: spreading [null] or [undefined] adds nothing, and
    later keys win. *)
Definition spread (user : option User.t) (patch : option ProfilePatch) : User.t :=
  let base := default (User.mk None None []) user in
  match patch with
  | None => base
  | Some p =>
      User.mk (default (User.role base) (patch_role p))
              (default (User.permissions base) (patch_permissions p))
              (patch_others p ++ User.others base)%list
  end.

(** The state held by the reducer. *)
Record AuthState := mkAuthState {
  isAuthenticated : bool;
  isLoading : bool;
  user : option User.t;
  error : option string;
  permissions : list Permission
}.

Definition initialState : AuthState :=
  {| isAuthenticated := false;
     isLoading := true;
     user := None;
     error := None;
     permissions := [] |}.

(** The payload of [LOGIN_SUCCESS] and [SET_USER]. *)
Record UserPayload := mkUserPayload {
  payload_user : option User.t;
  payload_permissions : option (list Permission)
}.

(** [AUTH_ACTIONS], each with the payload its dispatch sites pass;
    [UNKNOWN] is any other action type. *)
Inductive Action :=
| SET_LOADING (payload : bool)
| LOGIN_SUCCESS (payload : UserPayload)
| LOGIN_FAILURE (payload : string)
| LOGOUT
| SET_USER (payload : UserPayload)
| SET_ERROR (payload : string)
| CLEAR_ERROR
| UPDATE_PROFILE (payload : option ProfilePatch)
| UNKNOWN (type : string).

Definition authReducer (state : AuthState) (action : Action) : AuthState :=
  match action with
  | SET_LOADING payload =>
      {| isAuthenticated := isAuthenticated state;
         isLoading := payload;
         user := user state;
         error := error state;
         permissions := permissions state |}
  | LOGIN_SUCCESS payload =>
      {| isAuthenticated := true;
         isLoading := false;
         user := payload_user payload;
         error := None;
         permissions := default [] (payload_permissions payload) |}
  | LOGIN_FAILURE payload =>
      {| isAuthenticated := false;
         isLoading := false;
         user := None;
         error := Some payload;
         permissions := [] |}
  | LOGOUT =>
      {| isAuthenticated := isAuthenticated initialState;
         isLoading := false;
         user := user initialState;
         error := error initialState;
         permissions := permissions initialState |}
  | SET_USER payload =>
      {| isAuthenticated := true;
         isLoading := false;
         user := payload_user payload;
         error := error state;
         permissions := default (permissions state) (payload_permissions payload) |}
  | SET_ERROR payload =>
      {| isAuthenticated := isAuthenticated state;
         isLoading := false;
         user := user state;
         error := Some payload;
         permissions := permissions state |}
  | CLEAR_ERROR =>
      {| isAuthenticated := isAuthenticated state;
         isLoading := isLoading state;
         user := user state;
         error := None;
         permissions := permissions state |}
  | UPDATE_PROFILE payload =>
      {| isAuthenticated := isAuthenticated state;
         isLoading := isLoading state;
         user := Some (spread (user state) payload);
         error := error state;
         permissions := permissions state |}
  | UNKNOWN _ => state
  end.

(** [state.user.role === r], for a user that may be [null]. *)
Definition role_is (u : option User.t) (r : string) : bool :=
  match u with
  | Some u => bool_decide (User.role u = Some r)
  | None => false
  end.

(** [hasPermission], [hasRole] and [hasAnyRole] read the rendered state. *)
Definition hasPermission (state : AuthState) (permission : string) : bool :=
  match user state with
  | None => false
  | Some u =>
      if bool_decide (User.role u = Some "InstituteAdmin") then true
      else existsb (λ perm, String.eqb (name perm) permission) (permissions state)
  end.

Definition hasRole (state : AuthState) (role : string) : bool :=
  match user state with
  | None => false
  | Some u => bool_decide (User.role u = Some role)
  end.

Definition hasAnyRole (state : AuthState) (roles : list string) : bool :=
  match user state with
  | None => false
  | Some u => existsb (λ r, bool_decide (User.role u = Some r)) roles
  end.

(** [response.data] of [authAPI.login] and [authAPI.register]:
    [data.user] and whatever else the server sends along. *)
Record SessionData := mkSessionData {
  data_user : option User.t;
  data_others : Payload
}.

(** [response.data] of [authAPI.getCurrentUser].  The code reads it as
    [response.data.user || response.data], so the same object is looked at
    twice: for its [user] property, and as a user record itself. *)
Record CurrentUserData := mkCurrentUserData {
  current_user : option User.t;
  current_self : User.t
}.

(** Modelled from the spec: the authentication collaborator of
    [../services/api], which is not part of the source tree.  Each method
    resolves with [{ success, data | message }] or rejects with an error that
    may carry a [status] (section 6 of the specification). *)
Module authAPI.
Record t := mk {
  login : Payload → completion (Response.t SessionData);
  register : Payload → completion (Response.t SessionData);
  logout : completion (Response.t Payload);
  logoutAll : completion (Response.t Payload);
  getCurrentUser : completion (Response.t CurrentUserData);
  updateProfile : Payload → completion (Response.t ProfilePatch);
  changePassword : Payload → completion (Response.t Payload);
  forgotPassword : string → completion (Response.t Payload);
  resetPassword : Payload → completion (Response.t Payload);
  getSessions : completion (Response.t Payload);
  revokeSession : string → completion (Response.t Payload)
}.
End authAPI.

(** Modelled from the spec: the rest of [../services/api], a token store read
    by [getAccessToken] and [getUserData] and emptied by [clearTokens]. *)
Record Services := mkServices {
  Storage : Type;
  getAccessToken : Storage → option string;
  getUserData : Storage → option User.t;
  clearTokens : Storage → Storage;
  api : authAPI.t
}.

(** What an operation of the provider runs over: the reducer state and the
    token store. *)
Record World (St : Type) := mkWorld {
  auth : AuthState;
  storage : St
}.
Arguments mkWorld {St} auth storage.
Arguments auth {St} _.
Arguments storage {St} _.

(** [obj.prop] for an [obj] that may be [undefined]. *)
Definition read {S A} (prop : string) (obj : option A) : Js S A :=
  match obj with
  | Some o => mret o
  | None => throw (TypeError_reading prop)
  end.

(** [verifyError.status === 401 || verifyError.message?.includes('401')] *)
Definition is_unauthorized (verifyError : JsError) : bool :=
  bool_decide (err_status verifyError = Some 401%Z) ||
  match err_message verifyError with
  | Some m => includes m "401"
  | None => false
  end.

Section AuthProvider.
Context (svc : Services).

Definition dispatch (action : Action) : Js (World (Storage svc)) unit :=
  modify (λ w, mkWorld (authReducer (auth w) action) (storage w)).

Definition initializeAuth : Js (World (Storage svc)) unit :=
  try_catch
    (dispatch (SET_LOADING true) ;;
     token ← gets (λ w, getAccessToken svc (storage w)) ;
     userData ← gets (λ w, getUserData svc (storage w)) ;
     match truthy_string token, userData with
     | true, Some userData =>
         dispatch (LOGIN_SUCCESS
                     {| payload_user := Some userData;
                        payload_permissions :=
                          Some (default [] (User.permissions userData)) |}) ;;
         try_catch
           (response ← await (authAPI.getCurrentUser (api svc)) ;
            if Response.success response then
              data ← read "user" (Response.data response) ;
              let freshUserData := default (current_self data) (current_user data) in
              dispatch (LOGIN_SUCCESS
                          {| payload_user := Some freshUserData;
                             payload_permissions :=
                               Some (default [] (User.permissions freshUserData)) |})
            else throw (new_Error "Invalid session"))
           (λ verifyError,
              if is_unauthorized verifyError then
                modify (λ w, mkWorld (auth w) (clearTokens svc (storage w))) ;;
                dispatch LOGOUT
              else mret ())
     | _, _ => dispatch (SET_LOADING false)
     end)
    (λ error, dispatch (SET_LOADING false)).

Definition login (credentials : Payload)
  : Js (World (Storage svc)) (ActionResult.t SessionData) :=
  try_catch
    (dispatch (SET_LOADING true) ;;
     dispatch CLEAR_ERROR ;;
     response ← await (authAPI.login (api svc) credentials) ;
     if Response.success response then
       data ← read "user" (Response.data response) ;
       u ← read "permissions" (data_user data) ;
       dispatch (LOGIN_SUCCESS
                   {| payload_user := Some u;
                      payload_permissions := Some (default [] (User.permissions u)) |}) ;;
       mret (ActionResult.succeeded (Response.data response))
     else throw (new_Error (or_string (Response.message response) "Login failed")))
    (λ error,
       let errorMessage := or_string (err_message error) "Login failed" in
       dispatch (LOGIN_FAILURE errorMessage) ;;
       mret (ActionResult.failed errorMessage)).

Definition register (userData : Payload)
  : Js (World (Storage svc)) (ActionResult.t SessionData) :=
  try_catch
    (dispatch (SET_LOADING true) ;;
     dispatch CLEAR_ERROR ;;
     response ← await (authAPI.register (api svc) userData) ;
     if Response.success response then
       data ← read "user" (Response.data response) ;
       u ← read "permissions" (data_user data) ;
       dispatch (LOGIN_SUCCESS
                   {| payload_user := Some u;
                      payload_permissions := Some (default [] (User.permissions u)) |}) ;;
       mret (ActionResult.succeeded (Response.data response))
     else throw (new_Error (or_string (Response.message response) "Registration failed")))
    (λ error,
       let errorMessage := or_string (err_message error) "Registration failed" in
       dispatch (SET_ERROR errorMessage) ;;
       mret (ActionResult.failed errorMessage)).

Definition logout (logoutAll : bool) : Js (World (Storage svc)) unit :=
  try_finally
    (try_catch
       (if logoutAll then
          await (authAPI.logoutAll (api svc)) ;; mret ()
        else
          await (authAPI.logout (api svc)) ;; mret ())
       (λ error, mret ()))
    (dispatch LOGOUT).

Definition updateProfile (profileData : Payload)
  : Js (World (Storage svc)) (ActionResult.t ProfilePatch) :=
  try_catch
    (response ← await (authAPI.updateProfile (api svc) profileData) ;
     if Response.success response then
       dispatch (UPDATE_PROFILE (Response.data response)) ;;
       mret (ActionResult.succeeded (Response.data response))
     else throw (new_Error (or_string (Response.message response) "Profile update failed")))
    (λ error,
       let errorMessage := or_string (err_message error) "Profile update failed" in
       mret (ActionResult.failed errorMessage)).

Definition changePassword (passwordData : Payload)
  : Js (World (Storage svc)) (ActionResult.t Payload) :=
  try_catch
    (response ← await (authAPI.changePassword (api svc) passwordData) ;
     mret (ActionResult.succeeded (Response.data response)))
    (λ error,
       let errorMessage := or_string (err_message error) "Password change failed" in
       mret (ActionResult.failed errorMessage)).

Definition forgotPassword (email : string)
  : Js (World (Storage svc)) (ActionResult.t Payload) :=
  try_catch
    (response ← await (authAPI.forgotPassword (api svc) email) ;
     mret (ActionResult.succeeded (Response.data response)))
    (λ error,
       let errorMessage := or_string (err_message error) "Password reset request failed" in
       mret (ActionResult.failed errorMessage)).

Definition resetPassword (resetData : Payload)
  : Js (World (Storage svc)) (ActionResult.t Payload) :=
  try_catch
    (response ← await (authAPI.resetPassword (api svc) resetData) ;
     mret (ActionResult.succeeded (Response.data response)))
    (λ error,
       let errorMessage := or_string (err_message error) "Password reset failed" in
       mret (ActionResult.failed errorMessage)).

Definition clearError : Js (World (Storage svc)) unit :=
  dispatch CLEAR_ERROR.

Definition getSessions : Js (World (Storage svc)) (ActionResult.t Payload) :=
  try_catch
    (response ← await (authAPI.getSessions (api svc)) ;
     mret (ActionResult.succeeded (Response.data response)))
    (λ error,
       let errorMessage := or_string (err_message error) "Failed to get sessions" in
       mret (ActionResult.failed errorMessage)).

Definition revokeSession (sessionId : string)
  : Js (World (Storage svc)) (ActionResult.t Payload) :=
  try_catch
    (response ← await (authAPI.revokeSession (api svc) sessionId) ;
     mret (ActionResult.succeeded (Response.data response)))
    (λ error,
       let errorMessage := or_string (err_message error) "Failed to revoke session" in
       mret (ActionResult.failed errorMessage)).

End AuthProvider.

(** The actions the provider dispatches, read off its dispatch sites:
    [SET_USER] is never dispatched, and [LOGIN_SUCCESS] always carries a user
    object and a permission array. *)
Inductive dispatchable : Action → Prop :=
| dispatchable_SET_LOADING b : dispatchable (SET_LOADING b)
| dispatchable_LOGIN_SUCCESS u ps :
    dispatchable (LOGIN_SUCCESS {| payload_user := Some u; payload_permissions := Some ps |})
| dispatchable_LOGIN_FAILURE msg : dispatchable (LOGIN_FAILURE msg)
| dispatchable_LOGOUT : dispatchable LOGOUT
| dispatchable_SET_ERROR msg : dispatchable (SET_ERROR msg)
| dispatchable_CLEAR_ERROR : dispatchable CLEAR_ERROR
| dispatchable_UPDATE_PROFILE patch : dispatchable (UPDATE_PROFILE patch).

(** The states the provider can render: [initialState] and whatever the
    reducer makes of it under dispatched actions. *)
Inductive rendered : AuthState → Prop :=
| rendered_initial : rendered initialState
| rendered_dispatch state action :
    rendered state → dispatchable action → rendered (authReducer state action).

(** ** The student attendance view *)

Module StudentAttendanceView.

(** The [user] prop: the view reads [user.role] and [user.id]. *)
Record ViewUser := mkViewUser {
  role : option string;
  id : string
}.

(** [cls.classIncharge], when present: a bare user id, or a populated user
    document of which the view reads [_id]. *)
Inductive Incharge :=
| InchargeId (id : string)
| InchargeDoc (_id : string).

Module Class.
Record t := mk {
  _id : string;
  className : string;
  classIncharge : option Incharge
}.
End Class.

Module Student.
Record t := mk {
  _id : string;
  name : option string
}.
End Student.

(** Modelled from the spec: the two values of an attendance record's status
    (section 3, AttendanceRecord); the backend schema is not part of the
    source tree. *)
Inductive Status := Present | Absent.

#[export] Instance Status_eq_dec : EqDecision Status.
Proof. solve_decision. Defined.

Record AttendanceRecord := mkRecord {
  status : Status;
  markedAt : string;
  markedBy : string
}.

(** The component's [useState] cells.  The attendance cell holds a plain
    object: [attendance] are its own properties, and [attendanceProto] is the
    record it inherits from when an assignment to its [__proto__] has
    re-parented it ([None]: it inherits from [Object.prototype] only). *)
Record ViewState := mkViewState {
  classes : list Class.t;
  selectedClass : option Class.t;
  attendanceDate : string;
  students : list Student.t;
  attendance : gmap string AttendanceRecord;
  loading : bool;
  saving : bool;
  attendanceProto : option AttendanceRecord
}.

(** The property names every plain object inherits from [Object.prototype]
    (ECMAScript, with the legacy accessors of its Annex B); each of them
    reads as a truthy value. *)
Definition Object_prototype : list string :=
  ["constructor"; "__defineGetter__"; "__defineSetter__"; "hasOwnProperty";
   "__lookupGetter__"; "__lookupSetter__"; "isPrototypeOf";
   "propertyIsEnumerable"; "toString"; "valueOf"; "__proto__"; "toLocaleString"].

(** [k] reads as a truthy inherited property: a non-empty property of the
    record the object was re-parented to, or a member of
    [Object.prototype]. *)
Definition inherited (proto : option AttendanceRecord) (k : string) : bool :=
  match proto with
  | Some record =>
      String.eqb k "status" ||
      (String.eqb k "markedAt" && negb (String.eqb (markedAt record) "")) ||
      (String.eqb k "markedBy" && negb (String.eqb (markedBy record) ""))
  | None => false
  end ||
  bool_decide (k ∈ Object_prototype).

(** [!!attendance[k]]: an own record, or a truthy inherited property. *)
Definition has_member (own : gmap string AttendanceRecord)
    (proto : option AttendanceRecord) (k : string) : bool :=
  bool_decide (is_Some (own !! k)) || inherited proto k.

(** The body of [POST /api/attendance/mark]. *)
Record MarkBody := mkMarkBody {
  body_studentId : string;
  body_classId : string;
  body_date : string;
  body_status : Status;
  body_markedBy : string
}.

(** The arguments of one [callApi(endpoint, method, body)]. *)
Record Request := mkRequest {
  endpoint : string;
  method : string;
  body : option MarkBody
}.

(** Modelled from the spec: [callApi] of the [useApiWithToast] hook, which is
    not part of the source tree, at the two result shapes this file needs,
    and the wall clock behind [new Date().toISOString()]. *)
Record Hook := mkHook {
  callApi_classes : Request → completion (Response.t (list Class.t));
  callApi_mark : Request → completion (Response.t Payload);
  toISOString : nat → string
}.

(** What a handler of the view runs over: the state cells, the requests
    issued so far (oldest first) and the clock. *)
Record ViewWorld := mkViewWorld {
  view : ViewState;
  requests : list Request;
  clock : nat
}.

Definition setView (f : ViewState → ViewState) : Js ViewWorld unit :=
  modify (λ w, mkViewWorld (f (view w)) (requests w) (clock w)).

Definition setClasses (v : list Class.t) : Js ViewWorld unit :=
  setView (λ s, mkViewState v (selectedClass s) (attendanceDate s) (students s)
                            (attendance s) (loading s) (saving s)
                            (attendanceProto s)).

Definition setSelectedClass (v : option Class.t) : Js ViewWorld unit :=
  setView (λ s, mkViewState (classes s) v (attendanceDate s) (students s)
                            (attendance s) (loading s) (saving s)
                            (attendanceProto s)).

(** [setAttendance(prev => ({ ...prev, ... }))] and [setAttendance({})]: the
    new value is a fresh object literal, whose own properties are [f] of the
    previous ones and which inherits from [Object.prototype] only. *)
Definition setAttendance
    (f : gmap string AttendanceRecord → gmap string AttendanceRecord)
  : Js ViewWorld unit :=
  setView (λ s, mkViewState (classes s) (selectedClass s) (attendanceDate s)
                            (students s) (f (attendance s)) (loading s) (saving s)
                            None).

Definition setLoading (v : bool) : Js ViewWorld unit :=
  setView (λ s, mkViewState (classes s) (selectedClass s) (attendanceDate s)
                            (students s) (attendance s) v (saving s)
                            (attendanceProto s)).

Definition setSaving (v : bool) : Js ViewWorld unit :=
  setView (λ s, mkViewState (classes s) (selectedClass s) (attendanceDate s)
                            (students s) (attendance s) (loading s) v
                            (attendanceProto s)).

(** [await callApi(...)]: the request is issued, time passes, the promise
    settles. *)
Definition callApi {D} (answer : Request → completion (Response.t D))
    (req : Request) : Js ViewWorld (Response.t D) :=
  modify (λ w, mkViewWorld (view w) (requests w ++ [req]) (S (clock w))) ;;
  await (answer req).

Section View.
Context (user : option ViewUser) (hook : Hook).

(** [user?.role === r] *)
Definition user_role_is (r : string) : bool :=
  match user with
  | Some u => bool_decide (role u = Some r)
  | None => false
  end.

(** [cls.classIncharge?._id === user.id || cls.classIncharge === user.id] *)
Definition incharge_is (u : ViewUser) (cls : Class.t) : bool :=
  match Class.classIncharge cls with
  | None => false || false
  | Some (InchargeDoc _id) => String.eqb _id (id u) || false
  | Some (InchargeId i) => false || String.eqb i (id u)
  end.

Definition loadAccessibleClasses : Js ViewWorld unit :=
  try_finally
    (try_catch
       (setLoading true ;;
        endpoint ←
          (if user_role_is "InstituteAdmin" || user_role_is "IT" then
             mret (Some "/api/classes")
           else if user_role_is "Teacher" then
             u ← read "id" user ;
             mret (Some ("/api/classes/teacher-access/" ++ id u))
           else
             setClasses [] ;; mret None) ;
        match endpoint with
        | None => mret ()
        | Some endpoint =>
            response ← callApi (callApi_classes hook) (mkRequest endpoint "GET" None) ;
            if Response.success response then
              let accessibleClasses := default [] (Response.data response) in
              filteredClasses ←
                (if user_role_is "Teacher" then
                   u ← read "id" user ;
                   mret (List.filter (incharge_is u) accessibleClasses)
                 else mret accessibleClasses) ;
              setClasses filteredClasses ;;
              match filteredClasses with
              | first :: _ => setSelectedClass (Some first)
              | [] => mret ()
              end
            else mret ()
        end)
       (λ error, mret ()))
    (setLoading false).

Definition markAttendance (studentId : string) (status : Status)
  : Js ViewWorld unit :=
  try_finally
    (try_catch
       (setSaving true ;;
        cls ← (w ← gets view ; read "_id" (selectedClass w)) ;
        date ← gets (λ w, attendanceDate (view w)) ;
        u ← read "id" user ;
        response ← callApi (callApi_mark hook)
                     (mkRequest "/api/attendance/mark" "POST"
                        (Some (mkMarkBody studentId (Class._id cls) date status (id u)))) ;
        if Response.success response then
          now ← gets (λ w, toISOString hook (clock w)) ;
          setAttendance (λ prev, <[studentId := mkRecord status now (id u)]> prev)
        else mret ())
       (λ error, mret ()))
    (setSaving false).

Definition markAllPresent : Js ViewWorld unit :=
  try_finally
    (try_catch
       (setSaving true ;;
        students ← gets (λ w, students (view w)) ;
        attendance ← gets (λ w, attendance (view w)) ;
        proto ← gets (λ w, attendanceProto (view w)) ;
        let unmarkedStudents :=
          List.filter (λ student, negb (has_member attendance proto (Student._id student)))
                      students in
        for_of unmarkedStudents
               (λ student, markAttendance (Student._id student) Present))
       (λ error, mret ()))
    (setSaving false).

End View.

(** [Object.keys(attendance)] and [Object.values(attendance)]; only their
    lengths are used, so the enumeration order does not matter. *)
Definition Object_keys (o : gmap string AttendanceRecord) : list string :=
  (map_to_list o).*1.
Definition Object_values (o : gmap string AttendanceRecord) : list AttendanceRecord :=
  (map_to_list o).*2.

Record Stats := mkStats {
  total : Z;
  marked : Z;
  present : Z;
  absent : Z;
  unmarked : Z
}.

Definition getAttendanceStats (s : ViewState) : Stats :=
  let total := Z.of_nat (length (students s)) in
  let marked := Z.of_nat (length (Object_keys (attendance s))) in
  let present :=
    Z.of_nat (length (List.filter (λ a, bool_decide (status a = Present))
                                  (Object_values (attendance s)))) in
  let absent :=
    Z.of_nat (length (List.filter (λ a, bool_decide (status a = Absent))
                                  (Object_values (attendance s)))) in
  {| total := total; marked := marked; present := present; absent := absent;
     unmarked := (total - marked)%Z |}.

End StudentAttendanceView.

(** ** Specification vocabulary *)

(** The state [LOGOUT] produces: [{ ...initialState, isLoading: false }]. *)
Definition loggedOut : AuthState :=
  {| isAuthenticated := false;
     isLoading := false;
     user := None;
     error := None;
     permissions := [] |}.

(** A uniform result: a true flag with the data and no error, or a false flag
    with a non-empty message and no data. *)
Definition uniform {D} (r : ActionResult.t D) : Prop :=
  (ActionResult.success r = true ∧ ActionResult.error r = None) ∨
  (ActionResult.success r = false ∧ ActionResult.data r = None ∧
   ∃ msg, ActionResult.error r = Some msg ∧ msg ≠ "").

(** The action returned normally, with a uniform result. *)
Definition returns_uniform {S D} (run : completion (ActionResult.t D) * S) : Prop :=
  ∃ r, run.1 = Normal r ∧ uniform r.

(** What a wrapper that never looks at [response.success] returns for a
    settled collaborator call. *)
Definition forwarded {D} (p : completion (Response.t D)) (dflt : string)
  : ActionResult.t D :=
  match p with
  | Normal response => ActionResult.succeeded (Response.data response)
  | Throw e => ActionResult.failed (or_string (err_message e) dflt)
  end.

(** The collaborator call failed: it rejected, or resolved with an
    unsuccessful response. *)
Definition failing {D} (p : completion (Response.t D)) : Prop :=
  match p with
  | Normal response => Response.success response = false
  | Throw _ => True
  end.

(** The state carries a non-empty error message. *)
Definition has_error (state : AuthState) : Prop :=
  ∃ msg, error state = Some msg ∧ msg ≠ "".

(** The error carries status 401, or its message mentions 401. *)
Definition carries_401 (e : JsError) : Prop :=
  err_status e = Some 401%Z ∨
  ∃ m pre post, err_message e = Some m ∧ m = pre ++ "401" ++ post.

(** A state without a user has no permissions. *)
Definition session_inv (state : AuthState) : Prop :=
  user state = None → permissions state = [].

(** [m] keeps the reducer state inside [P], however it completes. *)
Definition preserves {St A} (P : AuthState → Prop) (m : Js (World St) A) : Prop :=
  ∀ w, P (auth w) → P (auth (m w).2).

Import StudentAttendanceView.

(** The number of records of the attendance map with a given status. *)
Definition with_status (st : Status) (m : gmap string AttendanceRecord) : nat :=
  size (filter (λ kv, status kv.2 = st) m).

(** The user is the class lead: [classIncharge] is the user's id, or a user
    document with that id. *)
Definition designated_lead (u : ViewUser) (cls : Class.t) : Prop :=
  Class.classIncharge cls = Some (InchargeId (id u)) ∨
  Class.classIncharge cls = Some (InchargeDoc (id u)).

#[export] Instance Incharge_eq_dec : EqDecision Incharge.
Proof. solve_decision. Defined.

#[export] Instance designated_lead_dec u cls : Decision (designated_lead u cls).
Proof. unfold designated_lead. apply _. Defined.

(** [user?.role] *)
Definition role_of (user : option ViewUser) : option string := user ≫= role.

(** The classes shown after a successful fetch: the payload, or nothing when
    the payload is missing. *)
Definition fetched (response : Response.t (list Class.t)) : list Class.t :=
  default [] (Response.data response).

(** Every write call succeeds. *)
Definition writes_succeed (hook : Hook) : Prop :=
  ∀ req, ∃ response,
    callApi_mark hook req = Normal response ∧ Response.success response = true.

(** ** Sample data *)

(** A token store in the manner of [localStorage]: the access token and the
    cached user record. *)
Record LocalStorage := mkLocalStorage {
  accessToken : option string;
  userData : option User.t
}.

(** Services over that store: [clearTokens] empties it, [login] and
    [register] settle as [session], [getCurrentUser] as [current],
    [updateProfile] as [profile], every other method as [other]. *)
Definition services_with (session : completion (Response.t SessionData))
    (current : completion (Response.t CurrentUserData))
    (profile : completion (Response.t ProfilePatch))
    (other : completion (Response.t Payload)) : Services :=
  mkServices LocalStorage accessToken userData
    (λ _, mkLocalStorage None None)
    (authAPI.mk (λ _, session) (λ _, session) other other current
                (λ _, profile) (λ _, other) (λ _, other) (λ _, other)
                other (λ _, other)).

Definition teacher : User.t :=
  User.mk (Some "Teacher") (Some [mkPermission "attendance.mark"]) [("name", "Sana")].

Definition signed_in : AuthState :=
  {| isAuthenticated := true;
     isLoading := false;
     user := Some teacher;
     error := None;
     permissions := [mkPermission "attendance.mark"] |}.

Definition admin : User.t :=
  User.mk (Some "InstituteAdmin") None [("name", "Sana")].

Definition class_9A : Class.t := Class.mk "c1" "9-A" (Some (InchargeId "u7")).
Definition class_9B : Class.t := Class.mk "c2" "9-B" (Some (InchargeId "u8")).
Definition class_9C : Class.t := Class.mk "c3" "9-C" (Some (InchargeDoc "u7")).
Definition class_9D : Class.t := Class.mk "c4" "9-D" None.

Definition empty_view : ViewState :=
  mkViewState [] None "2024-01-01" [] ∅ false false None.

Definition roster : list Student.t :=
  [Student.mk "s1" (Some "Ali"); Student.mk "s2" (Some "Bina"); Student.mk "s3" None].

Definition marks : gmap string AttendanceRecord :=
  <["s2" := mkRecord Absent "2024-01-01T08:00:00.000Z" "u7"]> ∅.

Definition accepting_hook : Hook :=
  mkHook (λ _, Throw (new_Error "offline"))
         (λ _, Normal (Response.mk true None None))
         (λ _, "2024-01-01T09:00:00.000Z").

(** A roster with ids that name members of [Object.prototype], nobody marked
    yet. *)
Definition inherited_world : ViewWorld :=
  mkViewWorld
    (mkViewState [class_9A] (Some class_9A) "2024-01-01"
       [Student.mk "constructor" None; Student.mk "s1" None;
        Student.mk "__proto__" None; Student.mk "toString" None]
       ∅ false false None)
    [] 0.

(** A roster without a selected class. *)
Definition unselected_world : ViewWorld :=
  mkViewWorld (mkViewState [class_9A] None "2024-01-01" roster ∅ false false None) [] 0.

Definition marking_world : ViewWorld :=
  mkViewWorld (mkViewState [class_9A] (Some class_9A) "2024-01-01" roster marks false false None)
              [] 0.

(** ** The rest of the provider *)

(** The role shortcuts of the context value:
    [isInstituteAdmin: state.user?.role === 'InstituteAdmin'] and so on. *)
Definition isInstituteAdmin (state : AuthState) : bool := role_is (user state) "InstituteAdmin".
Definition isCollegeAdmin (state : AuthState) : bool := role_is (user state) "CollegeAdmin".
Definition isTeacher (state : AuthState) : bool := role_is (user state) "Teacher".
Definition isStudent (state : AuthState) : bool := role_is (user state) "Student".
Definition isSRO (state : AuthState) : bool := role_is (user state) "SRO".
Definition isAccounts (state : AuthState) : bool := role_is (user state) "Accounts".
Definition isIT (state : AuthState) : bool := role_is (user state) "IT".
Definition isEMS (state : AuthState) : bool := role_is (user state) "EMS".

(** The shortcuts in the order of the context value. *)
Definition roleShortcuts (state : AuthState) : list bool :=
  [isInstituteAdmin state; isCollegeAdmin state; isTeacher state; isStudent state;
   isSRO state; isAccounts state; isIT state; isEMS state].

(** The state [LOGIN_SUCCESS] produces for a user record. *)
Definition session_of (u : User.t) : AuthState :=
  {| isAuthenticated := true;
     isLoading := false;
     user := Some u;
     error := None;
     permissions := default [] (User.permissions u) |}.

(** The user record a session response carries, when the call resolved with a
    true flag and [data.user] is there. *)
Definition granted_user (p : completion (Response.t SessionData)) : option User.t :=
  match p with
  | Normal response =>
      if Response.success response then Response.data response ≫= data_user else None
  | Throw _ => None
  end.

(** The call resolved and the response carries a true flag. *)
Definition resolved_ok {D} (p : completion (Response.t D)) : bool :=
  match p with
  | Normal response => Response.success response
  | Throw _ => false
  end.

(** ** The rest of the attendance view *)

(** One element of the payload of
    [GET /api/attendance/class/{id}/date/{date}]: the view reads
    [record.student._id], [record.status], [record.markedAt] and
    [record.markedBy]; [record_student] is [None] when [record.student] is
    missing. *)
Record ServerRecord := mkServerRecord {
  record_student : option Student.t;
  record_status : Status;
  record_markedAt : string;
  record_markedBy : string
}.

(** Modelled from the spec: [callApi] of the [useApiWithToast] hook at the
    two result shapes of the roster and attendance endpoints. *)
Record LoadHook := mkLoadHook {
  callApi_students : Request → completion (Response.t (list Student.t));
  callApi_attendance : Request → completion (Response.t (list ServerRecord))
}.

Definition setStudents (v : list Student.t) : Js ViewWorld unit :=
  setView (λ s, mkViewState (classes s) (selectedClass s) (attendanceDate s) v
                            (attendance s) (loading s) (saving s)
                            (attendanceProto s)).

Definition setAttendanceDate (v : string) : Js ViewWorld unit :=
  setView (λ s, mkViewState (classes s) (selectedClass s) v (students s)
                            (attendance s) (loading s) (saving s)
                            (attendanceProto s)).

Definition loadStudents (hook : LoadHook) : Js ViewWorld unit :=
  selected ← gets (λ w, selectedClass (view w)) ;
  match selected with
  | None => mret ()
  | Some cls =>
      try_finally
        (try_catch
           (setLoading true ;;
            response ← callApi (callApi_students hook)
                         (mkRequest ("/api/classes/" ++ Class._id cls ++ "/students")
                                    "GET" None) ;
            if Response.success response then
              setStudents (default [] (Response.data response))
            else mret ())
           (λ error, mret ()))
        (setLoading false)
  end.

(** [response.data.forEach(record => { attendanceMap[record.student._id] =
    {...} })], started from an object with the own properties
    [attendanceMap] and the inherited record [proto].  The object never has
    an own [__proto__], so an assignment under that name runs the setter it
    inherits: it re-parents the object and adds no own property.  Any other
    name gets an own property. *)
Fixpoint forEach_record (records : list ServerRecord)
    (attendanceMap : gmap string AttendanceRecord) (proto : option AttendanceRecord)
  : completion (gmap string AttendanceRecord * option AttendanceRecord) :=
  match records with
  | [] => Normal (attendanceMap, proto)
  | record :: rest =>
      match record_student record with
      | None => Throw (TypeError_reading "_id")
      | Some student =>
          let entry := mkRecord (record_status record) (record_markedAt record)
                                (record_markedBy record) in
          if String.eqb (Student._id student) "__proto__" then
            forEach_record rest attendanceMap (Some entry)
          else
            forEach_record rest (<[Student._id student := entry]> attendanceMap) proto
      end
  end.

(** [setAttendance(attendanceMap)], for the object [forEach_record] built. *)
Definition setAttendanceObject
    (attendanceMap : gmap string AttendanceRecord * option AttendanceRecord)
  : Js ViewWorld unit :=
  setView (λ s, mkViewState (classes s) (selectedClass s) (attendanceDate s)
                            (students s) attendanceMap.1 (loading s) (saving s)
                            attendanceMap.2).

Definition loadExistingAttendance (hook : LoadHook) : Js ViewWorld unit :=
  selected ← gets (λ w, selectedClass (view w)) ;
  match selected with
  | None => mret ()
  | Some cls =>
      try_catch
        (date ← gets (λ w, attendanceDate (view w)) ;
         response ← callApi (callApi_attendance hook)
                      (mkRequest ("/api/attendance/class/" ++ Class._id cls ++
                                  "/date/" ++ date) "GET" None) ;
         match Response.success response, Response.data response with
         | true, Some data =>
             attendanceMap ← await (forEach_record data ∅ None) ;
             setAttendanceObject attendanceMap
         | _, _ => setAttendance (λ _, ∅)
         end)
        (λ error, setAttendance (λ _, ∅))
  end.

(** The [onChange] handler of the class selector:
    [setSelectedClass(classes.find(c => c._id === e.target.value))]. *)
Definition onClassChange (value : string) : Js ViewWorld unit :=
  classes ← gets (λ w, classes (view w)) ;
  setSelectedClass (List.find (λ c, String.eqb (Class._id c) value) classes).

(** The [onChange] handler of the date input. *)
Definition onDateChange (value : string) : Js ViewWorld unit :=
  setAttendanceDate value.

(** The request [markAttendance] issues. *)
Definition mark_request (u : ViewUser) (cls : Class.t) (date studentId : string)
    (st : Status) : Request :=
  mkRequest "/api/attendance/mark" "POST"
    (Some (mkMarkBody studentId (Class._id cls) date st (id u))).

(** The students [markAllPresent] iterates over. *)
Definition unmarkedStudents (s : ViewState) : list Student.t :=
  List.filter (λ student,
                 negb (has_member (attendance s) (attendanceProto s) (Student._id student)))
              (students s).

(** Whenever there is a roster, a class is selected. *)
Definition roster_has_class (s : ViewState) : Prop :=
  students s ≠ [] → is_Some (selectedClass s).

(** [m] keeps the view state inside [P], however it completes. *)
Definition keeps (P : ViewState → Prop) (m : Js ViewWorld unit) : Prop :=
  ∀ w, P (view w) → P (view (m w).2).

(** The map entry [loadExistingAttendance] makes of a server record. *)
Definition to_attendance (record : ServerRecord) : AttendanceRecord :=
  mkRecord (record_status record) (record_markedAt record) (record_markedBy record).

(** The server record is about the student with id [k]. *)
Definition record_for (k : string) (record : ServerRecord) : Prop :=
  ∃ student, record_student record = Some student ∧ Student._id student = k.

#[export] Instance record_for_dec k record : Decision (record_for k record).
Proof.
  unfold record_for. destruct (record_student record) as [student|].
  - destruct (decide (Student._id student = k)) as [Heq|Hne].
    + left. by exists student.
    + right. intros (student' & [= <-] & Hk). done.
  - right. intros (student' & [=] & _).
Defined.

(** The view with [saving] set. *)
Definition with_saving (v : bool) (s : ViewState) : ViewState :=
  mkViewState (classes s) (selectedClass s) (attendanceDate s) (students s)
              (attendance s) (loading s) v (attendanceProto s).

(** The view after one [markAttendance] that reached the server. *)
Definition marked_view (ok : bool) (studentId : string) (record : AttendanceRecord)
    (s : ViewState) : ViewState :=
  mkViewState (classes s) (selectedClass s) (attendanceDate s) (students s)
              (if ok then <[studentId := record]> (attendance s) else attendance s)
              (loading s) false
              (if ok then None else attendanceProto s).

(** A hook whose write calls are all rejected. *)
Definition rejecting_hook : Hook :=
  mkHook (λ _, Throw (new_Error "offline")) (λ _, Throw (new_Error "offline"))
         (λ _, "2024-01-01T09:00:00.000Z").

(** What the roster becomes after the answer [p] of the roster endpoint. *)
Definition roster_after (p : completion (Response.t (list Student.t)))
    (old : list Student.t) : list Student.t :=
  match p with
  | Normal response =>
      if Response.success response then default [] (Response.data response) else old
  | Throw _ => old
  end.

(** The answer of the attendance endpoint cannot be turned into a map: the
    call was rejected, the flag is false, the data is missing, or a record
    lacks its student. *)
Definition unusable_records (p : completion (Response.t (list ServerRecord))) : Prop :=
  match p with
  | Normal response =>
      Response.success response = false ∨
      match Response.data response with
      | None => True
      | Some data => Exists (λ record, record_student record = None) data
      end
  | Throw _ => True
  end.

(** A hook for the roster and attendance endpoints that answers with the
    given students and records. *)
Definition loading_hook (students : list Student.t) (records : list ServerRecord)
  : LoadHook :=
  mkLoadHook (λ _, Normal (Response.mk true (Some students) None))
             (λ _, Normal (Response.mk true (Some records) None)).

(** The view with [loading] off. *)
Definition loaded_view (s : ViewState) : ViewState :=
  mkViewState (classes s) (selectedClass s) (attendanceDate s) (students s)
              (attendance s) false (saving s) (attendanceProto s).

(** The view after [loadAccessibleClasses] got the answer [p] and keeps the
    classes [keep] selects: the shown classes replace the list, and the first
    of them, when there is one, becomes the selection. *)
Definition classes_after (p : completion (Response.t (list Class.t)))
    (keep : list Class.t → list Class.t) (s : ViewState) : ViewState :=
  match p with
  | Normal response =>
      if Response.success response then
        let shown := keep (default [] (Response.data response)) in
        mkViewState shown
          (match shown with first :: _ => Some first | [] => selectedClass s end)
          (attendanceDate s) (students s) (attendance s) false (saving s)
          (attendanceProto s)
      else loaded_view s
  | Throw _ => loaded_view s
  end.

(** ** The statistics cards *)

Module StatsCards.

(** An entry of a level-progression table; the cards read [notProgressed]. *)
Record LevelData := mkLevelData { notProgressed : option Z }.

(** [currentData.genderLevelProgression]: one table per gender, keyed by
    level. *)
Record GenderLevels := mkGenderLevels {
  boys : option (gmap Z LevelData);
  girls : option (gmap Z LevelData)
}.

(** [currentData], as far as [getNonProgressionData] reads it. *)
Record CurrentData := mkCurrentData {
  levelProgression : option (gmap Z LevelData);
  genderLevelProgression : option GenderLevels
}.

Record NonProgression := mkNonProgression {
  total : Z;
  boys_total : Z;
  girls_total : Z
}.

(** [x?.notProgressed || 0] *)
Definition notProgressed_or_0 (x : option LevelData) : Z :=
  match x ≫= notProgressed with
  | Some n => if Z.eqb n 0 then 0%Z else n
  | None => 0%Z
  end.

(** [getNonProgressionData].  [level] is [parseInt(selectedLevel)], [None]
    when that is [NaN]; a table has no entry under [NaN]. *)
Definition getNonProgressionData (currentData : option CurrentData)
    (level : option Z) : NonProgression :=
  match currentData ≫= levelProgression, currentData ≫= genderLevelProgression,
        bool_decide (level = Some 1%Z) with
  | Some levels, Some genders, false =>
      let levelData := level ≫= (levels !!.) in
      let boysData := boys genders ≫= λ t, level ≫= (t !!.) in
      let girlsData := girls genders ≫= λ t, level ≫= (t !!.) in
      {| total := notProgressed_or_0 levelData;
         boys_total := notProgressed_or_0 boysData;
         girls_total := notProgressed_or_0 girlsData |}
  | _, _, _ => {| total := 0; boys_total := 0; girls_total := 0 |}
  end.

(** [card.nonProgressed > 0 && parseInt(selectedLevel) > 1]: whether a card
    shows its "did not progress" line. *)
Definition shows_nonProgressed (nonProgressed : Z) (level : option Z) : bool :=
  Z.ltb 0 nonProgressed &&
  match level with
  | Some l => Z.ltb 1 l
  | None => false
  end.

End StatsCards.

(** ** The dashboard header *)

(** [getRoleSpecificContent] for the props [title], [subtitle] and [userRole];
    a prop left [undefined] takes its default. *)
Definition getRoleSpecificContent (title subtitle userRole : option string)
  : string * string :=
  let title := default "Dashboard" title in
  let subtitle := default "Manage operations and daily activities" subtitle in
  let userRole := default "" userRole in
  if String.eqb userRole "InstituteAdmin" then
    ("Institute Admin Dashboard", "Manage institute operations and daily activities")
  else if String.eqb userRole "Principal" then
    ("Principal Dashboard", "Statistical overview and institutional performance metrics")
  else if String.eqb userRole "IT" then
    ("IT Dashboard", "System management and technical operations")
  else if String.eqb userRole "Receptionist" then
    ("Receptionist Dashboard", "Student services and enquiry management")
  else (title, subtitle).

(** * Properties *)

(** ** The monad *)

Ltac js_unfold :=
  unfold try_catch, try_finally, mbind, mret, Js_bind, Js_ret, js_bind, js_ret,
         await, throw, modify, gets, read in *;
  simpl in *.

Lemma or_string_nonempty (s : option string) (dflt : string) :
  dflt ≠ "" → or_string s dflt ≠ "".
Proof.
  intros Hd. unfold or_string, truthy_string.
  destruct s as [s|]; simpl; [|done].
  destruct (String.eqb_spec s ""); simpl; done.
Qed.

(** ** Strings: [includes] finds exactly the substrings *)

Lemma append_cons (c : Ascii.ascii) (p post : string) :
  String c p ++ post = String c (p ++ post).
Proof. reflexivity. Qed.

Lemma prefix_app (p s : string) :
  String.prefix p s = true ↔ ∃ post, s = p ++ post.
Proof.
  revert s. induction p as [|c p IH]; intros [|d s]; simpl.
  - split; [intros _; by exists "" | done].
  - split; [intros _; by exists (String d s) | done].
  - split; [done | intros [post Hp]; discriminate].
  - destruct (Ascii.ascii_dec c d) as [->|Hne].
    + rewrite IH.
      split; intros [post Hp]; exists post; rewrite append_cons in *; congruence.
    + split; [done | intros [post Hp]; rewrite append_cons in *; congruence].
Qed.

Lemma includes_unfold (hay needle : string) :
  includes hay needle =
  String.prefix needle hay ||
  match hay with
  | EmptyString => false
  | String _ rest => includes rest needle
  end.
Proof. by destruct hay. Qed.

Lemma includes_substring (hay needle : string) :
  includes hay needle = true ↔ ∃ pre post, hay = pre ++ needle ++ post.
Proof.
  induction hay as [|c hay IH]; rewrite includes_unfold.
  - rewrite orb_false_r, prefix_app. split.
    + intros [post Hp]. by exists "", post.
    + intros [[|d pre] [post Hp]]; [by exists post | discriminate].
  - rewrite orb_true_iff, prefix_app, IH. split.
    + intros [[post Hp] | [pre [post Hp]]].
      * by exists "", post.
      * exists (String c pre), post. rewrite append_cons. by rewrite Hp.
    + intros [[|d pre] [post Hp]].
      * left. by exists post.
      * right. exists pre, post. rewrite append_cons in Hp. congruence.
Qed.

Example includes_status_line :
  includes "Request failed with status code 401" "401" = true.
Proof. reflexivity. Qed.

Example includes_network_error : includes "Network Error" "401" = false.
Proof. reflexivity. Qed.

(** ** Logout *)

(** C9: whatever the flag, the prior state and the outcome of the remote
    revoke call, [logout] completes normally and leaves the cleared initial
    state: not authenticated, no user, no permissions, no error, not
    loading. *)
Theorem logout_always_clears (svc : Services) (logoutAll : bool)
    (w : World (Storage svc)) :
  logout svc logoutAll w = (Normal (), mkWorld loggedOut (storage w)).
Proof.
  unfold logout, dispatch. js_unfold.
  destruct logoutAll.
  - destruct (authAPI.logoutAll (api svc)); reflexivity.
  - destruct (authAPI.logout (api svc)); reflexivity.
Qed.

(** ** Result shape of the action functions *)

Lemma uniform_succeeded {D} (d : option D) : uniform (ActionResult.succeeded d).
Proof. left. done. Qed.

Lemma uniform_failed {D} (s : option string) (dflt : string) :
  dflt ≠ "" → uniform (ActionResult.failed (D:=D) (or_string s dflt)).
Proof.
  intros Hd. right. repeat split.
  eexists. split; [reflexivity|]. by apply or_string_nonempty.
Qed.

Create HintDb uniform.
#[local] Hint Resolve uniform_succeeded uniform_failed : uniform.

Ltac uniform_done :=
  eexists; split; [reflexivity|]; auto with uniform.

(** [login], [register] and [updateProfile] catch whatever their [try] block
    throws, a reading of a missing [data] or [data.user] included. *)
Lemma login_returns (svc : Services) credentials (w : World (Storage svc)) :
  returns_uniform (login svc credentials w).
Proof.
  unfold returns_uniform, login, dispatch. js_unfold.
  destruct (authAPI.login (api svc) credentials) as [[ok [[[u|] ?]|] msg]|e];
    simpl; try destruct ok; simpl; uniform_done.
Qed.

Lemma register_returns (svc : Services) userData (w : World (Storage svc)) :
  returns_uniform (register svc userData w).
Proof.
  unfold returns_uniform, register, dispatch. js_unfold.
  destruct (authAPI.register (api svc) userData) as [[ok [[[u|] ?]|] msg]|e];
    simpl; try destruct ok; simpl; uniform_done.
Qed.

Lemma updateProfile_returns (svc : Services) profileData (w : World (Storage svc)) :
  returns_uniform (updateProfile svc profileData w).
Proof.
  unfold returns_uniform, updateProfile, dispatch. js_unfold.
  destruct (authAPI.updateProfile (api svc) profileData) as [[[] d msg]|e];
    simpl; uniform_done.
Qed.

(** C6: every mutating action function returns normally, whatever the
    collaborator does, with a success flag and either the data or a non-empty
    error message. *)
Theorem actions_return_uniform_result (svc : Services) (w : World (Storage svc))
    (payload : Payload) (text : string) :
  returns_uniform (login svc payload w) ∧
  returns_uniform (register svc payload w) ∧
  returns_uniform (updateProfile svc payload w) ∧
  returns_uniform (changePassword svc payload w) ∧
  returns_uniform (forgotPassword svc text w) ∧
  returns_uniform (resetPassword svc payload w) ∧
  returns_uniform (getSessions svc w) ∧
  returns_uniform (revokeSession svc text w).
Proof.
  split; [apply login_returns|].
  split; [apply register_returns|].
  split; [apply updateProfile_returns|].
  unfold returns_uniform, changePassword, forgotPassword, resetPassword,
         getSessions, revokeSession.
  js_unfold.
  repeat split;
    match goal with
    | |- context [match ?c with Normal _ => _ | Throw _ => _ end] => destruct c
    end; simpl; uniform_done.
Qed.

(** ** Password helpers *)

(** C10: [changePassword], [forgotPassword] and [resetPassword] return
    [{ success: true, data: response.data }] whenever the collaborator call
    resolves, whatever flag the response carries, and a failure result
    exactly when the call throws; the auth state is left alone. *)
Theorem password_helpers_ignore_flag (svc : Services) (w : World (Storage svc))
    (payload : Payload) (email : string) :
  changePassword svc payload w =
    (Normal (forwarded (authAPI.changePassword (api svc) payload)
                       "Password change failed"), w) ∧
  forgotPassword svc email w =
    (Normal (forwarded (authAPI.forgotPassword (api svc) email)
                       "Password reset request failed"), w) ∧
  resetPassword svc payload w =
    (Normal (forwarded (authAPI.resetPassword (api svc) payload)
                       "Password reset failed"), w).
Proof.
  unfold changePassword, forgotPassword, resetPassword, forwarded. js_unfold.
  repeat split;
    match goal with
    | |- context [match ?c with Normal _ => _ | Throw _ => _ end] => destruct c
    end; reflexivity.
Qed.

(** A response that says it failed is still reported as a success. *)
Example changePassword_unsuccessful_response :
  let svc := services_with (Throw (new_Error "")) (Throw (new_Error ""))
               (Throw (new_Error ""))
               (Normal (Response.mk false None (Some "Wrong password"))) in
  (changePassword svc [] (mkWorld initialState (mkLocalStorage None None))).1 =
  Normal (ActionResult.mk true None None).
Proof. reflexivity. Qed.

(** ** Failing login and registration *)

Lemma login_failure_state (svc : Services) credentials (w : World (Storage svc)) :
  failing (authAPI.login (api svc) credentials) →
  ∃ msg, msg ≠ "" ∧
    login svc credentials w =
      (Normal (ActionResult.failed msg),
       mkWorld {| isAuthenticated := false;
                  isLoading := false;
                  user := None;
                  error := Some msg;
                  permissions := [] |} (storage w)).
Proof.
  unfold failing, login, dispatch. js_unfold.
  destruct (authAPI.login (api svc) credentials) as [[ok d msg]|e]; simpl.
  - intros ->; simpl. eexists. split; [|reflexivity].
    apply or_string_nonempty. done.
  - intros _. eexists. split; [|reflexivity].
    apply or_string_nonempty. done.
Qed.

Lemma register_failure_state (svc : Services) userData (w : World (Storage svc)) :
  failing (authAPI.register (api svc) userData) →
  ∃ msg, msg ≠ "" ∧
    register svc userData w =
      (Normal (ActionResult.failed msg),
       mkWorld {| isAuthenticated := isAuthenticated (auth w);
                  isLoading := false;
                  user := user (auth w);
                  error := Some msg;
                  permissions := permissions (auth w) |} (storage w)).
Proof.
  unfold failing, register, dispatch. js_unfold.
  destruct (authAPI.register (api svc) userData) as [[ok d msg]|e]; simpl.
  - intros ->; simpl. eexists. split; [|reflexivity].
    apply or_string_nonempty. done.
  - intros _. eexists. split; [|reflexivity].
    apply or_string_nonempty. done.
Qed.

(** The same states follow whenever the returned result reports a failure,
    which also covers a response that claims success without a usable
    [data.user]. *)
Lemma login_failed_result (svc : Services) credentials (w w' : World (Storage svc))
    (r : ActionResult.t SessionData) :
  login svc credentials w = (Normal r, w') →
  ActionResult.success r = false →
  ∃ msg, msg ≠ "" ∧ r = ActionResult.failed msg ∧
    w' = mkWorld {| isAuthenticated := false;
                    isLoading := false;
                    user := None;
                    error := Some msg;
                    permissions := [] |} (storage w).
Proof.
  unfold login, dispatch. js_unfold.
  destruct (authAPI.login (api svc) credentials) as [[[] [[[u|] ?]|] msg]|e];
    simpl; intros [= <- <-] Hr; try discriminate Hr;
    (eexists; split; [|split; reflexivity]);
    first [by apply or_string_nonempty | done].
Qed.

Lemma register_failed_result (svc : Services) userData (w w' : World (Storage svc))
    (r : ActionResult.t SessionData) :
  register svc userData w = (Normal r, w') →
  ActionResult.success r = false →
  ∃ msg, msg ≠ "" ∧ r = ActionResult.failed msg ∧
    w' = mkWorld {| isAuthenticated := isAuthenticated (auth w);
                    isLoading := false;
                    user := user (auth w);
                    error := Some msg;
                    permissions := permissions (auth w) |} (storage w).
Proof.
  unfold register, dispatch. js_unfold.
  destruct (authAPI.register (api svc) userData) as [[[] [[[u|] ?]|] msg]|e];
    simpl; intros [= <- <-] Hr; try discriminate Hr;
    (eexists; split; [|split; reflexivity]);
    first [by apply or_string_nonempty | done].
Qed.

(** A response that claims success but carries no data fails inside the
    [try] and is reported like any other failure. *)
Example login_without_data :
  let svc := services_with (Normal (Response.mk true None None))
               (Throw (new_Error "")) (Throw (new_Error "")) (Throw (new_Error "")) in
  login svc [] (mkWorld signed_in (mkLocalStorage None None)) =
  (Normal (ActionResult.failed "Cannot read properties of undefined (reading 'user')"),
   mkWorld (mkAuthState false false None
              (Some "Cannot read properties of undefined (reading 'user')") [])
           (mkLocalStorage None None)).
Proof. reflexivity. Qed.

(** C3, as amended: a failing [login] leaves an error message and a cleared
    session (not authenticated, no user, no permissions); a failing
    [register] leaves an error message and turns loading off, and keeps
    [isAuthenticated], [user] and [permissions] as they were before the
    call. *)
Theorem login_register_failure (svc : Services) (payload : Payload)
    (w : World (Storage svc)) :
  (failing (authAPI.login (api svc) payload) →
   let state' := auth (login svc payload w).2 in
   has_error state' ∧ isAuthenticated state' = false ∧
   user state' = None ∧ permissions state' = []) ∧
  (failing (authAPI.register (api svc) payload) →
   let state' := auth (register svc payload w).2 in
   has_error state' ∧ isLoading state' = false ∧
   isAuthenticated state' = isAuthenticated (auth w) ∧
   user state' = user (auth w) ∧
   permissions state' = permissions (auth w)).
Proof.
  split; intros Hfail.
  - destruct (login_failure_state svc payload w Hfail) as (msg & Hmsg & ->).
    simpl. repeat split. by exists msg.
  - destruct (register_failure_state svc payload w Hfail) as (msg & Hmsg & ->).
    simpl. repeat split. by exists msg.
Qed.

Lemma login_register_failure_witness :
  let svc := services_with (Throw (mkError (Some "Network Error") None))
                           (Throw (new_Error "")) (Throw (new_Error ""))
                           (Throw (new_Error "")) in
  let w := mkWorld signed_in (mkLocalStorage (Some "token") (Some teacher)) in
  (has_error (auth (login svc [] w).2) ∧
   isAuthenticated (auth (login svc [] w).2) = false) ∧
  (has_error (auth (register svc [] w).2) ∧
   user (auth (register svc [] w).2) = Some teacher).
Proof.
  intros svc w.
  destruct (login_register_failure svc [] w) as [Hlogin Hregister].
  split.
  - destruct (Hlogin I) as (? & ? & _). by split.
  - destruct (Hregister I) as (? & _ & _ & ? & _). by split.
Defined.

(** C3 as stated fails for [register]: a rejected registration on a
    signed-in session sets the error and leaves the session signed in. *)
Lemma register_failure_keeps_session :
  let svc := services_with (Throw (mkError (Some "Email already registered") (Some 409%Z)))
                           (Throw (new_Error "")) (Throw (new_Error ""))
                           (Throw (new_Error "")) in
  let w := mkWorld signed_in (mkLocalStorage (Some "token") (Some teacher)) in
  failing (authAPI.register (api svc) []) ∧
  (register svc [] w).1 = Normal (ActionResult.failed "Email already registered") ∧
  ¬ (isAuthenticated (auth (register svc [] w).2) = false ∧
     user (auth (register svc [] w).2) = None ∧
     permissions (auth (register svc [] w).2) = []).
Proof.
  simpl. split; [exact I|]. split; [reflexivity|].
  intros (Hauth & _). discriminate Hauth.
Qed.

(** ** Restoring the session at start-up *)

Lemma is_unauthorized_spec (e : JsError) :
  is_unauthorized e = true ↔ carries_401 e.
Proof.
  unfold is_unauthorized, carries_401.
  rewrite orb_true_iff, bool_decide_eq_true.
  destruct (err_message e) as [m|].
  - rewrite includes_substring. split.
    + intros [?|(pre & post & ?)]; [by left | right; by exists m, pre, post].
    + intros [?|(m' & pre & post & [= <-] & ?)]; [by left | right; by exists pre, post].
  - split.
    + intros [?|?]; [by left | done].
    + intros [?|(m' & pre & post & ? & ?)]; [by left | done].
Qed.

Lemma truthy_string_Some (s : string) : s ≠ "" → truthy_string (Some s) = true.
Proof.
  intros Hs. unfold truthy_string. by destruct (String.eqb_spec s "").
Qed.

(** The whole of [initializeAuth] when a token and a user are cached and the
    background validation rejects. *)
Lemma initializeAuth_rejected (svc : Services) (state : AuthState)
    (store : Storage svc) (token : string) (cached : User.t) (e : JsError) :
  getAccessToken svc store = Some token → token ≠ "" →
  getUserData svc store = Some cached →
  authAPI.getCurrentUser (api svc) = Throw e →
  initializeAuth svc (mkWorld state store) =
    (Normal (),
     if is_unauthorized e then mkWorld loggedOut (clearTokens svc store)
     else mkWorld {| isAuthenticated := true;
                     isLoading := false;
                     user := Some cached;
                     error := None;
                     permissions := default [] (User.permissions cached) |}
                  store).
Proof.
  intros Htoken Hne Huser Hcall.
  unfold initializeAuth, dispatch. js_unfold.
  rewrite Htoken, Huser, (truthy_string_Some _ Hne), Hcall. simpl.
  by destruct (is_unauthorized e).
Qed.

(** C1: with a cached token and a cached user, when the background
    validation rejects, the session is cleared and the cached tokens are
    removed if and only if the error carries status 401 or a message
    mentioning 401; after any other rejection the session stays authenticated
    with the cached user and the token store is untouched. *)
Theorem initializeAuth_validation_rejected (svc : Services) (state : AuthState)
    (store : Storage svc) (token : string) (cached : User.t) (e : JsError) :
  getAccessToken svc store = Some token → token ≠ "" →
  getUserData svc store = Some cached →
  authAPI.getCurrentUser (api svc) = Throw e →
  (∀ s, getAccessToken svc (clearTokens svc s) = None) →
  let w' := (initializeAuth svc (mkWorld state store)).2 in
  ((auth w' = loggedOut ∧ getAccessToken svc (storage w') = None) ↔ carries_401 e) ∧
  (¬ carries_401 e →
   isAuthenticated (auth w') = true ∧ user (auth w') = Some cached ∧
   storage w' = store ∧ getAccessToken svc (storage w') = Some token).
Proof.
  intros Htoken Hne Huser Hcall Hclear w'. subst w'.
  rewrite (initializeAuth_rejected svc state store token cached e) by done.
  rewrite <- is_unauthorized_spec.
  destruct (is_unauthorized e); simpl.
  - split; [|done]. split; [done|]. intros _. by rewrite Hclear.
  - split.
    + split; [|done]. intros [Hout _]. discriminate Hout.
    + done.
Qed.

Lemma initializeAuth_validation_rejected_witness :
  let svc := services_with (Throw (new_Error ""))
                           (Throw (mkError (Some "Request failed with status code 401") None))
                           (Throw (new_Error "")) (Throw (new_Error "")) in
  let store := mkLocalStorage (Some "token") (Some teacher) in
  auth (initializeAuth svc (mkWorld initialState store)).2 = loggedOut ∧
  accessToken (storage (initializeAuth svc (mkWorld initialState store)).2) = None.
Proof.
  intros svc store.
  apply (initializeAuth_validation_rejected svc initialState store "token" teacher
           (mkError (Some "Request failed with status code 401") None));
    try done.
  right. by exists "Request failed with status code 401",
                   "Request failed with status code ", "".
Defined.

(** A server error during validation keeps the cached session. *)
Example initializeAuth_server_error :
  let svc := services_with (Throw (new_Error ""))
                           (Throw (mkError (Some "Internal Server Error") (Some 500%Z)))
                           (Throw (new_Error "")) (Throw (new_Error "")) in
  let store := mkLocalStorage (Some "token") (Some teacher) in
  initializeAuth svc (mkWorld initialState store) = (Normal (), mkWorld signed_in store).
Proof. reflexivity. Qed.

(** C8: with a cached token and a cached user, when the background
    validation resolves successfully with a payload, the session user is the
    fresh record of that payload ([data.user] when present, else [data]) and
    the permissions are the fresh record's, whatever the cached user was. *)
Theorem initializeAuth_validation_success (svc : Services) (state : AuthState)
    (store : Storage svc) (token : string) (cached : User.t)
    (response : Response.t CurrentUserData) (data : CurrentUserData) :
  getAccessToken svc store = Some token → token ≠ "" →
  getUserData svc store = Some cached →
  authAPI.getCurrentUser (api svc) = Normal response →
  Response.success response = true →
  Response.data response = Some data →
  let fresh := default (current_self data) (current_user data) in
  initializeAuth svc (mkWorld state store) =
    (Normal (),
     mkWorld {| isAuthenticated := true;
                isLoading := false;
                user := Some fresh;
                error := None;
                permissions := default [] (User.permissions fresh) |}
             store).
Proof.
  intros Htoken Hne Huser Hcall Hok Hdata fresh.
  unfold initializeAuth, dispatch. js_unfold.
  rewrite Htoken, Huser, (truthy_string_Some _ Hne), Hcall. simpl.
  rewrite Hok, Hdata. reflexivity.
Qed.

Lemma initializeAuth_validation_success_witness :
  let svc := services_with (Throw (new_Error ""))
               (Normal (Response.mk true
                          (Some (mkCurrentUserData (Some admin) (User.mk None None [])))
                          None))
               (Throw (new_Error "")) (Throw (new_Error "")) in
  let store := mkLocalStorage (Some "token") (Some teacher) in
  user (auth (initializeAuth svc (mkWorld initialState store)).2) = Some admin.
Proof.
  intros svc store.
  pose proof (initializeAuth_validation_success svc initialState store "token" teacher
                _ _ eq_refl ltac:(done) eq_refl eq_refl eq_refl eq_refl) as Hrun.
  simpl in Hrun. by rewrite Hrun.
Defined.

(** ** Permission checks *)

Lemma rendered_session_inv (state : AuthState) : rendered state → session_inv state.
Proof.
  induction 1 as [|state action _ IH Hact]; [done|].
  destruct Hact; unfold session_inv in *; simpl; auto; done.
Qed.

Section Preserves.
Context {St : Type} (P : AuthState → Prop).

Lemma preserves_ret {A} (a : A) : preserves (St:=St) P (mret a).
Proof. by intros w. Qed.

Lemma preserves_throw {A} (e : JsError) : preserves (St:=St) (A:=A) P (throw e).
Proof. by intros w. Qed.

Lemma preserves_await {A} (p : completion A) : preserves (St:=St) P (await p).
Proof. by intros w. Qed.

Lemma preserves_gets {A} (f : World St → A) : preserves P (gets f).
Proof. by intros w. Qed.

Lemma preserves_read {A} (prop : string) (o : option A) :
  preserves (St:=St) P (read prop o).
Proof. by destruct o; intros w. Qed.

Lemma preserves_bind {A B} (m : Js (World St) A) (f : A → Js (World St) B) :
  preserves P m → (∀ a, preserves P (f a)) → preserves P (m ≫= f).
Proof.
  intros Hm Hf w Hw. specialize (Hm w Hw).
  unfold mbind, Js_bind, js_bind.
  destruct (m w) as [[a|e] w']; simpl in *; [by apply Hf | done].
Qed.

Lemma preserves_try_catch {A} (body : Js (World St) A) handler :
  preserves P body → (∀ e, preserves P (handler e)) →
  preserves P (try_catch body handler).
Proof.
  intros Hm Hf w Hw. specialize (Hm w Hw).
  unfold try_catch.
  destruct (body w) as [[a|e] w']; simpl in *; [done | by apply Hf].
Qed.

Lemma preserves_try_finally {A} (body : Js (World St) A) fin :
  preserves P body → preserves P fin → preserves P (try_finally body fin).
Proof.
  intros Hm Hf w Hw. specialize (Hm w Hw).
  unfold try_finally.
  destruct (body w) as [r w']; simpl in *.
  specialize (Hf w' Hm). by destruct (fin w') as [[[]|e] w''].
Qed.

Lemma preserves_storage (f : St → St) :
  preserves P (modify (λ w, mkWorld (auth w) (f (storage w)))).
Proof. by intros w. Qed.

End Preserves.

Lemma preserves_dispatch (svc : Services) (action : Action) :
  dispatchable action → preserves rendered (dispatch svc action).
Proof. intros Hact w Hw. by apply rendered_dispatch. Qed.

Ltac preserves_step :=
  first
    [ apply preserves_try_catch; [|intros ?]
    | apply preserves_try_finally
    | apply preserves_bind; [|intros ?]
    | apply preserves_dispatch; constructor
    | apply preserves_ret
    | apply preserves_throw
    | apply preserves_await
    | apply preserves_gets
    | apply preserves_read
    | apply preserves_storage
    | match goal with
      | |- preserves _ (if ?b then _ else _) => destruct b
      | |- preserves _ (match ?x with _ => _ end) => destruct x
      end ].

(** Every operation of the provider takes rendered states to rendered
    states: [dispatchable] covers every dispatch site. *)
Lemma provider_renders (svc : Services) (payload : Payload) (flag : bool) :
  preserves rendered (initializeAuth svc) ∧
  preserves rendered (login svc payload) ∧
  preserves rendered (register svc payload) ∧
  preserves rendered (logout svc flag) ∧
  preserves rendered (updateProfile svc payload) ∧
  preserves rendered (clearError svc).
Proof.
  unfold initializeAuth, login, register, logout, updateProfile, clearError.
  repeat split; repeat preserves_step.
Qed.

(** Outside the rendered states the early return on a missing user shows:
    such a state is never rendered. *)
Example hasPermission_without_user :
  let state := mkAuthState false false None None [mkPermission "attendance.mark"] in
  hasPermission state "attendance.mark" = false ∧ ¬ rendered state.
Proof.
  split; [reflexivity|].
  intros Hr%rendered_session_inv. by specialize (Hr eq_refl).
Qed.

(** C2: in every state the provider can render, [hasPermission] answers true
    for any permission name when the user's role is "InstituteAdmin", and
    otherwise answers true exactly when the permission list holds an entry
    with the queried name. *)
Theorem hasPermission_spec (state : AuthState) (permission : string) :
  rendered state →
  (role_is (user state) "InstituteAdmin" = true →
   hasPermission state permission = true) ∧
  (role_is (user state) "InstituteAdmin" = false →
   (hasPermission state permission = true ↔
    ∃ perm, perm ∈ permissions state ∧ name perm = permission)).
Proof.
  intros Hinv%rendered_session_inv.
  unfold hasPermission, role_is, session_inv in *.
  destruct (user state) as [u|].
  - split; intros ->; [done|].
    rewrite existsb_exists.
    split; intros (perm & Hin & Hname); exists perm.
    + apply String.eqb_eq in Hname. split; [by apply list_elem_of_In | done].
    + split; [by apply list_elem_of_In | by apply String.eqb_eq].
  - rewrite Hinv by done. split; [done|]. intros _.
    split; [done|]. intros (perm & Hin & _). by apply elem_of_nil in Hin.
Qed.

Lemma hasPermission_spec_witness :
  hasPermission signed_in "attendance.mark" = true ∧
  hasPermission signed_in "fees.edit" = false.
Proof.
  assert (rendered signed_in) as Hr.
  { apply (rendered_dispatch initialState
             (LOGIN_SUCCESS (mkUserPayload (Some teacher)
                                           (Some [mkPermission "attendance.mark"]))));
      constructor. }
  split.
  - apply (hasPermission_spec signed_in "attendance.mark" Hr); [done|].
    exists (mkPermission "attendance.mark"). split; [constructor | done].
  - destruct (hasPermission signed_in "fees.edit") eqn:Hp; [|done].
    apply (hasPermission_spec signed_in "fees.edit" Hr) in Hp as (perm & Hin & Hname);
      [|done].
    apply list_elem_of_singleton in Hin as ->. discriminate Hname.
Defined.

(** ** Attendance statistics *)

Lemma filter_values_length {K A} (Q : A → Prop) `{!∀ a, Decision (Q a)}
    (l : list (K * A)) :
  length (List.filter (λ a, bool_decide (Q a)) l.*2) =
  length (filter (λ kv : K * A, Q kv.2) l).
Proof.
  induction l as [|[k a] l IH]; [done|].
  rewrite fmap_cons, filter_cons. simpl.
  destruct (decide (Q a)) as [Hq|Hq].
  - rewrite bool_decide_eq_true_2 by done. simpl. by rewrite IH.
  - rewrite bool_decide_eq_false_2 by done. done.
Qed.

Lemma with_status_values (st : Status) (m : gmap string AttendanceRecord) :
  length (List.filter (λ a, bool_decide (status a = st)) (Object_values m)) =
  with_status st m.
Proof.
  unfold with_status, Object_values.
  rewrite filter_values_length, map_filter_alt, map_size_list_to_map; [done|].
  apply (sublist_NoDup _ (map_to_list m).*1).
  - apply NoDup_fst_map_to_list.
  - apply fmap_sublist, sublist_filter.
Qed.

Lemma status_partition (l : list AttendanceRecord) :
  length l =
  length (List.filter (λ a, bool_decide (status a = Present)) l) +
  length (List.filter (λ a, bool_decide (status a = Absent)) l).
Proof.
  induction l as [|a l IH]; [done|].
  simpl. destruct (status a); simpl; lia.
Qed.

(** C5: for a roster of N students and an attendance map with P records
    marked present and A marked absent, the statistics report P, A and
    [unmarked = N - (P + A)]. *)
Theorem getAttendanceStats_unmarked (s : ViewState) :
  let stats := getAttendanceStats s in
  let N := Z.of_nat (length (students s)) in
  let P := Z.of_nat (with_status Present (attendance s)) in
  let A := Z.of_nat (with_status Absent (attendance s)) in
  total stats = N ∧ present stats = P ∧ absent stats = A ∧
  unmarked stats = (N - (P + A))%Z.
Proof.
  unfold getAttendanceStats. simpl.
  rewrite !with_status_values.
  repeat split.
  unfold Object_keys.
  rewrite length_fmap, <- (length_fmap snd).
  rewrite (status_partition (map_to_list (attendance s)).*2).
  fold (Object_values (attendance s)).
  rewrite !with_status_values. lia.
Qed.

(** A roster of three with one present and one absent leaves one unmarked. *)
Example getAttendanceStats_sample :
  let roster := [Student.mk "s1" None; Student.mk "s2" None; Student.mk "s3" None] in
  let marks : gmap string AttendanceRecord :=
    <["s1" := mkRecord Present "09:00" "u1"]>
      (<["s2" := mkRecord Absent "09:01" "u1"]> ∅) in
  getAttendanceStats (mkViewState [] None "2024-01-01" roster marks false false None) =
  mkStats 3 2 1 1 1.
Proof. vm_compute. reflexivity. Qed.

(** ** Loading the accessible classes *)

Lemma incharge_is_spec (u : ViewUser) (cls : Class.t) :
  incharge_is u cls = true ↔ designated_lead u cls.
Proof.
  unfold incharge_is, designated_lead.
  destruct (Class.classIncharge cls) as [[i|i]|]; simpl.
  - rewrite String.eqb_eq. split; [intros ->; by left | by intros [[= ->]|[=]]].
  - rewrite orb_false_r, String.eqb_eq.
    split; [intros ->; by right | by intros [[=]|[= ->]]].
  - split; [done | by intros [?|?]].
Qed.

Lemma filter_incharge (u : ViewUser) (l : list Class.t) :
  List.filter (incharge_is u) l = filter (designated_lead u) l.
Proof.
  induction l as [|cls l IH]; [done|].
  simpl. rewrite filter_cons, IH.
  destruct (decide (designated_lead u cls)) as [Hd|Hd].
  - apply incharge_is_spec in Hd. by rewrite Hd.
  - destruct (incharge_is u cls) eqn:Hi; [|done].
    by apply incharge_is_spec in Hi.
Qed.

Lemma user_role_is_spec (user : option ViewUser) (r : string) :
  user_role_is user r = true ↔ role_of user = Some r.
Proof.
  unfold user_role_is, role_of. destruct user as [u|]; simpl; [|done].
  apply bool_decide_eq_true.
Qed.

Lemma user_role_is_false (user : option ViewUser) (r : string) :
  role_of user ≠ Some r → user_role_is user r = false.
Proof.
  intros Hne. destruct (user_role_is user r) eqn:Hr; [|done].
  by apply user_role_is_spec in Hr.
Qed.

Ltac view_unfold :=
  unfold callApi, setClasses, setSelectedClass, setAttendance, setLoading,
         setSaving, setView in *;
  js_unfold.

(** C7: [loadAccessibleClasses] picks the endpoint by role.  The
    administrator roles ("InstituteAdmin", "IT") issue one GET of
    [/api/classes] and show what it returns.  The "Teacher" role issues one
    GET of its teacher-access endpoint and shows, of what it returns, the
    classes whose lead is the user.  Any other role, or no user, issues no
    request and shows no classes. *)
Theorem loadAccessibleClasses_by_role (user : option ViewUser) (hook : Hook)
    (w : ViewWorld) :
  let w' := (loadAccessibleClasses user hook w).2 in
  (role_of user = Some "InstituteAdmin" ∨ role_of user = Some "IT" →
   let req := mkRequest "/api/classes" "GET" None in
   requests w' = (requests w ++ [req])%list ∧
   ∀ response, callApi_classes hook req = Normal response →
     Response.success response = true →
     classes (view w') = fetched response) ∧
  (∀ u, user = Some u → role u = Some "Teacher" →
   let req := mkRequest ("/api/classes/teacher-access/" ++ id u) "GET" None in
   requests w' = (requests w ++ [req])%list ∧
   ∀ response, callApi_classes hook req = Normal response →
     Response.success response = true →
     classes (view w') = filter (designated_lead u) (fetched response)) ∧
  (role_of user ≠ Some "InstituteAdmin" → role_of user ≠ Some "IT" →
   role_of user ≠ Some "Teacher" →
   requests w' = requests w ∧ classes (view w') = []).
Proof.
  intros w'. subst w'. unfold loadAccessibleClasses, fetched.
  split; [|split].
  - intros Hrole.
    assert (user_role_is user "InstituteAdmin" || user_role_is user "IT" = true) as ->.
    { apply orb_true_iff. rewrite !user_role_is_spec. tauto. }
    assert (user_role_is user "Teacher" = false) as ->.
    { apply user_role_is_false. by destruct Hrole as [-> | ->]. }
    view_unfold.
    destruct (callApi_classes hook _) as [[[] d msg]|e]; simpl.
    + destruct (default [] d) eqn:Hd; simpl;
        (split; [done|]); intros response [= <-] _; simpl; by rewrite Hd.
    + split; [done|]. by intros response [= <-].
    + done.
  - intros u -> Hrole. unfold user_role_is. rewrite Hrole. simpl.
    view_unfold.
    destruct (callApi_classes hook _) as [[[] d msg]|e]; simpl.
    + rewrite filter_incharge.
      destruct (filter (designated_lead u) (default [] d)) eqn:Hd; simpl;
        (split; [done|]); intros response [= <-] _; simpl; by rewrite Hd.
    + split; [done|]. by intros response [= <-].
    + done.
  - intros Hadmin Hit Hteacher.
    rewrite !user_role_is_false by done. by view_unfold.
Qed.

Lemma loadAccessibleClasses_by_role_witness :
  let user := Some (mkViewUser (Some "Teacher") "u7") in
  let hook :=
    mkHook (λ _, Normal (Response.mk true
                           (Some [class_9A; class_9B; class_9C; class_9D]) None))
           (λ _, Throw (new_Error "offline")) (λ _, "") in
  let w' := (loadAccessibleClasses user hook (mkViewWorld empty_view [] 0)).2 in
  requests w' = [mkRequest "/api/classes/teacher-access/u7" "GET" None] ∧
  classes (view w') = [class_9A; class_9C].
Proof.
  intros user hook w'.
  destruct (loadAccessibleClasses_by_role user hook (mkViewWorld empty_view [] 0))
    as (_ & Hteacher & _).
  destruct (Hteacher (mkViewUser (Some "Teacher") "u7") eq_refl eq_refl)
    as [Hreq Hclasses].
  split; [exact Hreq|].
  exact (Hclasses _ eq_refl eq_refl).
Defined.

(** ** Marking attendance *)

Section Marking.
Context (u : ViewUser) (hook : Hook) (cls : Class.t).
Hypothesis Hwrites : writes_succeed hook.

(** One successful [markAttendance]: one request, one record merged into the
    map, nothing else touched but the [saving] flag. *)
Lemma markAttendance_success (studentId : string) (st : Status) (w : ViewWorld) :
  selectedClass (view w) = Some cls →
  markAttendance (Some u) hook studentId st w =
    (Normal (),
     mkViewWorld
       (mkViewState (classes (view w)) (Some cls) (attendanceDate (view w))
          (students (view w))
          (<[studentId := mkRecord st (toISOString hook (S (clock w))) (id u)]>
             (attendance (view w)))
          (loading (view w)) false None)
       (requests w ++
        [mkRequest "/api/attendance/mark" "POST"
           (Some (mkMarkBody studentId (Class._id cls) (attendanceDate (view w)) st (id u)))])
       (S (clock w))).
Proof.
  intros Hsel. unfold markAttendance. view_unfold. rewrite Hsel. simpl.
  destruct (Hwrites (mkRequest "/api/attendance/mark" "POST"
              (Some (mkMarkBody studentId (Class._id cls) (attendanceDate (view w)) st (id u)))))
    as (response & -> & Hok).
  simpl. by rewrite Hok.
Qed.

(** The loop of [markAllPresent] over a list of students. *)
Lemma mark_each_present (l : list Student.t) (w : ViewWorld) :
  selectedClass (view w) = Some cls →
  let run := for_of l (λ student, markAttendance (Some u) hook (Student._id student) Present) w in
  run.1 = Normal () ∧
  selectedClass (view run.2) = Some cls ∧
  students (view run.2) = students (view w) ∧
  (∀ k, k ∈ Student._id <$> l →
        ∃ r, attendance (view run.2) !! k = Some r ∧ status r = Present) ∧
  (∀ k, k ∉ Student._id <$> l →
        attendance (view run.2) !! k = attendance (view w) !! k).
Proof.
  revert w. induction l as [|student l IH]; intros w Hsel; simpl.
  - repeat split; try done. intros k Hk. by apply elem_of_nil in Hk.
  - unfold mbind, Js_bind, js_bind.
    rewrite markAttendance_success by done.
    set (w1 := mkViewWorld _ _ _).
    destruct (IH w1 eq_refl) as (Hrun & Hsel' & Hst & Hin & Hout).
    repeat split; try done.
    + intros k Hk.
      destruct (decide (k ∈ Student._id <$> l)) as [Hl|Hl]; [by apply Hin|].
      apply elem_of_cons in Hk as [->|Hk]; [|done].
      rewrite (Hout _ Hl). simpl. rewrite lookup_insert_eq. by eexists.
    + intros k Hk. apply not_elem_of_cons in Hk as [Hne Hl].
      rewrite (Hout _ Hl). simpl. by rewrite lookup_insert_ne.
Qed.

End Marking.

Lemma has_member_false (own : gmap string AttendanceRecord)
    (proto : option AttendanceRecord) (k : string) :
  has_member own proto k = false ↔ own !! k = None ∧ inherited proto k = false.
Proof.
  unfold has_member.
  rewrite orb_false_iff, bool_decide_eq_false, <- eq_None_not_Some. done.
Qed.




(** The same run, computed: two requests, one per unmarked student, in
    roster order. *)
Example markAllPresent_sample :
  let user := Some (mkViewUser (Some "Teacher") "u7") in
  let w' := (markAllPresent user accepting_hook marking_world).2 in
  body_studentId <$> omap body (requests w') = ["s1"; "s3"] ∧
  saving (view w') = false ∧
  size (attendance (view w')) = 3.
Proof. vm_compute. done. Qed.

(** * Further properties of the provider *)

(** ** Granting a session *)

Lemma login_run (svc : Services) credentials (w : World (Storage svc)) :
  login svc credentials w =
  match authAPI.login (api svc) credentials with
  | Normal response =>
      match granted_user (Normal response) with
      | Some u => (Normal (ActionResult.succeeded (Response.data response)),
                   mkWorld (session_of u) (storage w))
      | None =>
          let msg :=
            if Response.success response then
              match Response.data response with
              | None => or_string (err_message (TypeError_reading "user")) "Login failed"
              | Some _ => or_string (err_message (TypeError_reading "permissions")) "Login failed"
              end
            else or_string (Some (or_string (Response.message response) "Login failed"))
                           "Login failed" in
          (Normal (ActionResult.failed msg),
           mkWorld (mkAuthState false false None (Some msg) []) (storage w))
      end
  | Throw e =>
      let msg := or_string (err_message e) "Login failed" in
      (Normal (ActionResult.failed msg),
       mkWorld (mkAuthState false false None (Some msg) []) (storage w))
  end.
Proof.
  unfold login, dispatch, granted_user, session_of. js_unfold.
  by destruct (authAPI.login (api svc) credentials) as [[[] [[[u|] ?]|] msg]|e].
Qed.

Lemma register_run (svc : Services) userData (w : World (Storage svc)) :
  register svc userData w =
  match authAPI.register (api svc) userData with
  | Normal response =>
      match granted_user (Normal response) with
      | Some u => (Normal (ActionResult.succeeded (Response.data response)),
                   mkWorld (session_of u) (storage w))
      | None =>
          let msg :=
            if Response.success response then
              match Response.data response with
              | None => or_string (err_message (TypeError_reading "user")) "Registration failed"
              | Some _ =>
                  or_string (err_message (TypeError_reading "permissions")) "Registration failed"
              end
            else or_string (Some (or_string (Response.message response) "Registration failed"))
                           "Registration failed" in
          (Normal (ActionResult.failed msg),
           mkWorld (authReducer (authReducer (authReducer (auth w) (SET_LOADING true))
                                             CLEAR_ERROR) (SET_ERROR msg))
                   (storage w))
      end
  | Throw e =>
      let msg := or_string (err_message e) "Registration failed" in
      (Normal (ActionResult.failed msg),
       mkWorld (authReducer (authReducer (authReducer (auth w) (SET_LOADING true))
                                         CLEAR_ERROR) (SET_ERROR msg))
               (storage w))
  end.
Proof.
  unfold register, dispatch, granted_user, session_of. js_unfold.
  by destruct (authAPI.register (api svc) userData) as [[[] [[[u|] ?]|] msg]|e].
Qed.

(** [login] and [register] report success exactly when the collaborator
    resolved with a true flag and a [data.user]; the session is then that
    user's, with the permissions of the user record, no error and loading
    off. *)
Theorem session_granted_iff (svc : Services) (payload : Payload)
    (w : World (Storage svc)) :
  let granted_by f := granted_user (f (api svc) payload) in
  (∃ r, (login svc payload w).1 = Normal r ∧
        (ActionResult.success r = true ↔ is_Some (granted_by authAPI.login))) ∧
  (∀ u, granted_by authAPI.login = Some u →
        auth (login svc payload w).2 = session_of u) ∧
  (∃ r, (register svc payload w).1 = Normal r ∧
        (ActionResult.success r = true ↔ is_Some (granted_by authAPI.register))) ∧
  (∀ u, granted_by authAPI.register = Some u →
        auth (register svc payload w).2 = session_of u).
Proof.
  intros granted_by. unfold granted_by. rewrite login_run, register_run.
  repeat split.
  - destruct (authAPI.login (api svc) payload) as [response|e].
    + destruct (granted_user (Normal response)) as [u|]; simpl;
        eexists; (split; [reflexivity|]); simpl.
      * split; [by eexists | done].
      * split; [done | by intros [? ?]].
    + simpl. eexists. split; [reflexivity|]. simpl. split; [done | by intros [? ?]].
  - intros u Hu. destruct (authAPI.login (api svc) payload) as [response|e].
    + by rewrite Hu.
    + done.
  - destruct (authAPI.register (api svc) payload) as [response|e].
    + destruct (granted_user (Normal response)) as [u|]; simpl;
        eexists; (split; [reflexivity|]); simpl.
      * split; [by eexists | done].
      * split; [done | by intros [? ?]].
    + simpl. eexists. split; [reflexivity|]. simpl. split; [done | by intros [? ?]].
  - intros u Hu. destruct (authAPI.register (api svc) payload) as [response|e].
    + by rewrite Hu.
    + done.
Qed.

(** The state [login] leaves, and the result it returns, do not depend on the
    state it started from. *)
Theorem login_forgets_prior_state (svc : Services) (credentials : Payload)
    (state1 state2 : AuthState) (store : Storage svc) :
  login svc credentials (mkWorld state1 store) =
  login svc credentials (mkWorld state2 store).
Proof. by rewrite !login_run. Qed.

(** [register] does: after a failure the prior session shows through. *)
Example register_remembers_prior_state :
  let svc := services_with (Throw (new_Error "Email already registered"))
               (Throw (new_Error "")) (Throw (new_Error "")) (Throw (new_Error "")) in
  auth (register svc [] (mkWorld signed_in (mkLocalStorage None None))).2 ≠
  auth (register svc [] (mkWorld initialState (mkLocalStorage None None))).2.
Proof. simpl. discriminate. Qed.

(** ** Start-up in full *)

(** The errors raised inside the [try] never count as a 401. *)
Lemma internal_errors_not_unauthorized :
  is_unauthorized (TypeError_reading "user") = false ∧
  is_unauthorized (new_Error "Invalid session") = false.
Proof. split; reflexivity. Qed.

(** Every path through [initializeAuth]. *)
Lemma initializeAuth_run (svc : Services) (w : World (Storage svc)) :
  initializeAuth svc w =
  (Normal (),
   match truthy_string (getAccessToken svc (storage w)), getUserData svc (storage w) with
   | true, Some cached =>
       match authAPI.getCurrentUser (api svc) with
       | Normal response =>
           match Response.success response, Response.data response with
           | true, Some data =>
               mkWorld (session_of (default (current_self data) (current_user data)))
                       (storage w)
           | _, _ => mkWorld (session_of cached) (storage w)
           end
       | Throw e =>
           if is_unauthorized e then mkWorld loggedOut (clearTokens svc (storage w))
           else mkWorld (session_of cached) (storage w)
       end
   | _, _ =>
       mkWorld (mkAuthState (isAuthenticated (auth w)) false (user (auth w))
                            (error (auth w)) (permissions (auth w)))
               (storage w)
   end).
Proof.
  unfold initializeAuth, dispatch, session_of. js_unfold.
  destruct (truthy_string _); [|done].
  destruct (getUserData svc (storage w)) as [cached|]; [|done]. simpl.
  destruct (authAPI.getCurrentUser (api svc)) as [[[] [data|] msg]|e]; simpl;
    try done.
  by destruct (is_unauthorized e).
Qed.

(** [initializeAuth] never throws, and [initializeAuth], [login], [register]
    and [logout] all leave [isLoading] false, whatever the store holds and
    however the collaborator answers. *)
Theorem loading_always_ends (svc : Services) (payload : Payload) (flag : bool)
    (w : World (Storage svc)) :
  (initializeAuth svc w).1 = Normal () ∧
  isLoading (auth (initializeAuth svc w).2) = false ∧
  isLoading (auth (login svc payload w).2) = false ∧
  isLoading (auth (register svc payload w).2) = false ∧
  isLoading (auth (logout svc flag w).2) = false.
Proof.
  rewrite initializeAuth_run, login_run, register_run, logout_always_clears.
  repeat split.
  - simpl. destruct (truthy_string _), (getUserData svc (storage w)); try done.
    destruct (authAPI.getCurrentUser (api svc)) as [[[] [data|] msg]|e]; try done.
    by destruct (is_unauthorized e).
  - destruct (authAPI.login (api svc) payload) as [response|e]; [|done].
    by destruct (granted_user (Normal response)).
  - destruct (authAPI.register (api svc) payload) as [response|e]; [|done].
    by destruct (granted_user (Normal response)).
Qed.

(** Without a usable cached token, or without a cached user, start-up only
    turns loading off: the rest of the state and the store stay as they
    were. *)
Theorem initializeAuth_nothing_cached (svc : Services) (state : AuthState)
    (store : Storage svc) :
  truthy_string (getAccessToken svc store) = false ∨ getUserData svc store = None →
  initializeAuth svc (mkWorld state store) =
  (Normal (),
   mkWorld (mkAuthState (isAuthenticated state) false (user state) (error state)
                        (permissions state))
           store).
Proof.
  intros Hnone. rewrite initializeAuth_run. simpl.
  destruct Hnone as [-> | ->]; [done|]. by destruct (truthy_string _).
Qed.

Lemma initializeAuth_nothing_cached_witness :
  let svc := services_with (Throw (new_Error "")) (Throw (new_Error ""))
                           (Throw (new_Error "")) (Throw (new_Error "")) in
  initializeAuth svc (mkWorld initialState (mkLocalStorage (Some "") (Some teacher))) =
  (Normal (),
   mkWorld (mkAuthState false false None None [])
           (mkLocalStorage (Some "") (Some teacher))).
Proof.
  intros svc.
  apply (initializeAuth_nothing_cached svc initialState
           (mkLocalStorage (Some "") (Some teacher))).
  by left.
Defined.

(** A validation call that resolves never signs the user out: when the
    response carries a false flag, or a true flag without data, the session
    is the cached user's and the store is untouched. *)
Theorem initializeAuth_unusable_response (svc : Services) (state : AuthState)
    (store : Storage svc) (token : string) (cached : User.t)
    (response : Response.t CurrentUserData) :
  getAccessToken svc store = Some token → token ≠ "" →
  getUserData svc store = Some cached →
  authAPI.getCurrentUser (api svc) = Normal response →
  Response.success response = false ∨ Response.data response = None →
  initializeAuth svc (mkWorld state store) =
  (Normal (), mkWorld (session_of cached) store).
Proof.
  intros Htoken Hne Huser Hcall Hbad. rewrite initializeAuth_run. simpl.
  rewrite Htoken, (truthy_string_Some _ Hne), Huser, Hcall.
  destruct Hbad as [-> | ->]; [done|]. by destruct (Response.success response).
Qed.

Lemma initializeAuth_unusable_response_witness :
  let svc := services_with (Throw (new_Error ""))
               (Normal (Response.mk false None (Some "Token expired")))
               (Throw (new_Error "")) (Throw (new_Error "")) in
  let store := mkLocalStorage (Some "token") (Some teacher) in
  initializeAuth svc (mkWorld initialState store) = (Normal (), mkWorld signed_in store).
Proof.
  intros svc store.
  apply (initializeAuth_unusable_response svc initialState store "token" teacher
           (Response.mk false None (Some "Token expired"))); try done.
  by left.
Defined.

(** ** Sessions and users *)

(** In every state the provider can render, an authenticated session has a
    user. *)
Theorem authenticated_has_user (state : AuthState) :
  rendered state → isAuthenticated state = true → is_Some (user state).
Proof.
  induction 1 as [|state action _ IH Hact]; [done|].
  destruct Hact; simpl; try done; by eexists.
Qed.

Lemma authenticated_has_user_witness : is_Some (user signed_in).
Proof.
  apply authenticated_has_user; [|done].
  apply (rendered_dispatch initialState
           (LOGIN_SUCCESS (mkUserPayload (Some teacher)
                                         (Some [mkPermission "attendance.mark"]))));
    constructor.
Defined.

(** The converse fails: a profile update after a logout renders a user who
    is not authenticated. *)
Example user_without_authentication :
  let svc := services_with (Throw (new_Error "")) (Throw (new_Error ""))
               (Normal (Response.mk true (Some (mkPatch (Some (Some "Teacher")) None [])) None))
               (Normal (Response.mk true None None)) in
  let w1 := (logout svc false (mkWorld signed_in (mkLocalStorage None None))).2 in
  let w2 := (updateProfile svc [] w1).2 in
  isAuthenticated (auth w2) = false ∧ hasRole (auth w2) "Teacher" = true.
Proof. by vm_compute. Qed.

(** ** Profile updates *)

Lemma updateProfile_run (svc : Services) profileData (w : World (Storage svc)) :
  updateProfile svc profileData w =
  match authAPI.updateProfile (api svc) profileData with
  | Normal response =>
      if Response.success response then
        (Normal (ActionResult.succeeded (Response.data response)),
         mkWorld (authReducer (auth w) (UPDATE_PROFILE (Response.data response)))
                 (storage w))
      else
        (Normal (ActionResult.failed
                   (or_string (Some (or_string (Response.message response)
                                               "Profile update failed"))
                              "Profile update failed")), w)
  | Throw e =>
      (Normal (ActionResult.failed (or_string (err_message e) "Profile update failed")), w)
  end.
Proof.
  unfold updateProfile, dispatch. js_unfold.
  by destruct (authAPI.updateProfile (api svc) profileData) as [[[] d msg]|e].
Qed.

(** A failed [updateProfile] changes nothing at all, and no [updateProfile]
    changes [isAuthenticated], [isLoading], [error] or the permission list:
    only the user record can change. *)
Theorem updateProfile_touches_user_only (svc : Services) (profileData : Payload)
    (w : World (Storage svc)) :
  let w' := (updateProfile svc profileData w).2 in
  (resolved_ok (authAPI.updateProfile (api svc) profileData) = false → w' = w) ∧
  isAuthenticated (auth w') = isAuthenticated (auth w) ∧
  isLoading (auth w') = isLoading (auth w) ∧
  error (auth w') = error (auth w) ∧
  permissions (auth w') = permissions (auth w).
Proof.
  intros w'. subst w'. rewrite updateProfile_run.
  by destruct (authAPI.updateProfile (api svc) profileData) as [[[] d msg]|e].
Qed.

(** For a signed-in user, a successful profile update that carries no [role]
    key leaves every [hasPermission] answer as it was, even when the update
    carries a new permission list. *)
Theorem updateProfile_keeps_permissions (svc : Services) (profileData : Payload)
    (w : World (Storage svc)) (u : User.t) (response : Response.t ProfilePatch)
    (permission : string) :
  user (auth w) = Some u →
  authAPI.updateProfile (api svc) profileData = Normal response →
  (∀ patch, Response.data response = Some patch → patch_role patch = None) →
  hasPermission (auth (updateProfile svc profileData w).2) permission =
  hasPermission (auth w) permission.
Proof.
  intros Hu Hcall Hrole. rewrite updateProfile_run, Hcall.
  destruct (Response.success response); [|done].
  unfold hasPermission. simpl. rewrite Hu. unfold spread. simpl.
  destruct (Response.data response) as [patch|]; [|done].
  simpl. by rewrite (Hrole patch eq_refl).
Qed.

Lemma updateProfile_keeps_permissions_witness :
  let svc := services_with (Throw (new_Error "")) (Throw (new_Error ""))
               (Normal (Response.mk true
                          (Some (mkPatch None (Some (Some [mkPermission "fees.edit"]))
                                         [("name", "Sana Khan")]))
                          None))
               (Throw (new_Error "")) in
  let w := mkWorld signed_in (mkLocalStorage None None) in
  hasPermission (auth (updateProfile svc [] w).2) "fees.edit" = false.
Proof.
  intros svc w.
  rewrite (updateProfile_keeps_permissions svc [] w teacher
             (Response.mk true
                (Some (mkPatch None (Some (Some [mkPermission "fees.edit"]))
                               [("name", "Sana Khan")])) None)
             "fees.edit" eq_refl eq_refl).
  - reflexivity.
  - by intros patch [= <-].
Defined.

(** ** Roles *)

Lemma role_is_exclusive (u : option User.t) (r1 r2 : string) :
  r1 ≠ r2 → role_is u r1 = true → role_is u r2 = false.
Proof.
  intros Hne. unfold role_is. destruct u as [u|]; [|done].
  rewrite bool_decide_eq_true, bool_decide_eq_false. congruence.
Qed.

Lemma filter_none {A} (f : A → bool) (l : list A) :
  (∀ x, x ∈ l → f x = false) → List.filter f l = [].
Proof.
  induction l as [|x l IH]; intros Hf; [done|].
  simpl. rewrite (Hf x) by apply list_elem_of_here.
  apply IH. intros y Hy. apply Hf. by apply list_elem_of_further.
Qed.

Lemma role_is_count (u : option User.t) (names : list string) :
  NoDup names → (length (List.filter (role_is u) names) ≤ 1)%nat.
Proof.
  induction 1 as [|r names Hr _ IH]; simpl; [lia|].
  destruct (role_is u r) eqn:Hrole; [|done].
  simpl. assert (List.filter (role_is u) names = []) as ->; [|simpl; lia].
  apply filter_none. intros r' Hin.
  apply (role_is_exclusive u r r'); [|done].
  by intros ->.
Qed.

(** [hasAnyRole] holds exactly when [hasRole] holds for one of the listed
    roles, and each role shortcut of the context value is [hasRole] at its
    role name; at most one of the eight shortcuts is true. *)
Theorem role_checks_agree (state : AuthState) (roles : list string) :
  (hasAnyRole state roles = true ↔ ∃ r, r ∈ roles ∧ hasRole state r = true) ∧
  roleShortcuts state =
    hasRole state <$> ["InstituteAdmin"; "CollegeAdmin"; "Teacher"; "Student";
                       "SRO"; "Accounts"; "IT"; "EMS"] ∧
  (length (List.filter (λ b, b) (roleShortcuts state)) ≤ 1)%nat.
Proof.
  assert (∀ r, hasRole state r = role_is (user state) r) as Hrole.
  { intros r. unfold hasRole, role_is. by destruct (user state). }
  split; [|split].
  - unfold hasAnyRole.
    destruct (user state) as [u|] eqn:Hu.
    + rewrite existsb_exists. setoid_rewrite list_elem_of_In.
      split; intros (r & Hin & Hr); exists r; (split; [done|]).
      * by rewrite Hrole.
      * by rewrite Hrole in Hr.
    + split; [done|]. intros (r & _ & Hr). by rewrite Hrole in Hr.
  - unfold roleShortcuts, isInstituteAdmin, isCollegeAdmin, isTeacher, isStudent,
      isSRO, isAccounts, isIT, isEMS. simpl. by rewrite !Hrole.
  - assert (∀ names, length (List.filter (λ b : bool, b) (role_is (user state) <$> names)) =
                     length (List.filter (role_is (user state)) names)) as Hmap.
    { induction names as [|r names IH]; [done|]. simpl.
      destruct (role_is (user state) r); simpl; [f_equal|]; exact IH. }
    unfold roleShortcuts, isInstituteAdmin, isCollegeAdmin, isTeacher, isStudent,
      isSRO, isAccounts, isIT, isEMS.
    specialize (Hmap ["InstituteAdmin"; "CollegeAdmin"; "Teacher"; "Student";
                      "SRO"; "Accounts"; "IT"; "EMS"]).
    simpl fmap in Hmap. rewrite Hmap.
    apply role_is_count.
    repeat (apply NoDup_cons; split;
            [intros Hin;
             repeat (apply elem_of_cons in Hin as [Hin|Hin]; [discriminate|]);
             by apply elem_of_nil in Hin|]).
    apply NoDup_nil_2.
Qed.

(** ** Session listing *)

(** [getSessions] and [revokeSession] forward the collaborator's answer like
    the password helpers: a resolved call is a success whatever its flag, a
    rejected call is a failure, and the state is left alone. *)
Theorem session_helpers_forward (svc : Services) (w : World (Storage svc))
    (sessionId : string) :
  getSessions svc w =
    (Normal (forwarded (authAPI.getSessions (api svc)) "Failed to get sessions"), w) ∧
  revokeSession svc sessionId w =
    (Normal (forwarded (authAPI.revokeSession (api svc) sessionId)
                       "Failed to revoke session"), w).
Proof.
  unfold getSessions, revokeSession, forwarded. js_unfold.
  split.
  - by destruct (authAPI.getSessions (api svc)).
  - by destruct (authAPI.revokeSession (api svc) sessionId).
Qed.

(** * Further properties of the attendance view *)

(** ** One mark *)

(** Every path through [markAttendance]. *)
Lemma markAttendance_run (user : option ViewUser) (hook : Hook)
    (studentId : string) (st : Status) (w : ViewWorld) :
  markAttendance user hook studentId st w =
  (Normal (),
   match selectedClass (view w), user with
   | Some cls, Some u =>
       let req := mark_request u cls (attendanceDate (view w)) studentId st in
       mkViewWorld
         (marked_view (resolved_ok (callApi_mark hook req)) studentId
                      (mkRecord st (toISOString hook (S (clock w))) (id u)) (view w))
         (requests w ++ [req]) (S (clock w))
   | _, _ => mkViewWorld (with_saving false (view w)) (requests w) (clock w)
   end).
Proof.
  unfold markAttendance, mark_request, marked_view, with_saving. view_unfold.
  destruct (selectedClass (view w)) as [cls|]; simpl; [|done].
  destruct user as [u|]; simpl; [|done].
  by destruct (callApi_mark hook _) as [[[] d msg]|e].
Qed.

(** [markAttendance] never throws and always ends with [saving] off; it
    leaves every other student's record, the roster, the class list and the
    selection alone, and issues at most one request. *)
Theorem markAttendance_frame (user : option ViewUser) (hook : Hook)
    (studentId : string) (st : Status) (w : ViewWorld) :
  let run := markAttendance user hook studentId st w in
  run.1 = Normal () ∧
  saving (view run.2) = false ∧
  (∀ k, k ≠ studentId → attendance (view run.2) !! k = attendance (view w) !! k) ∧
  students (view run.2) = students (view w) ∧
  classes (view run.2) = classes (view w) ∧
  selectedClass (view run.2) = selectedClass (view w) ∧
  (requests run.2 = requests w ∨ ∃ req, requests run.2 = (requests w ++ [req])%list).
Proof.
  intros run. subst run. rewrite markAttendance_run.
  destruct (selectedClass (view w)) as [cls|] eqn:Hsel, user as [u|]; simpl;
    repeat split; try done; try by left.
  - intros k Hk. destruct (resolved_ok _); [|done]. by rewrite lookup_insert_ne.
  - right. by eexists.
Qed.

(** A mark whose write resolves with a true flag is stored under the
    student's id with the given status, the clock's time and the user's id;
    the request carries the student, the selected class, the date, the status
    and the user. *)
Theorem markAttendance_stores (hook : Hook) (u : ViewUser) (cls : Class.t)
    (studentId : string) (st : Status) (w : ViewWorld) :
  selectedClass (view w) = Some cls →
  let req := mark_request u cls (attendanceDate (view w)) studentId st in
  resolved_ok (callApi_mark hook req) = true →
  let w' := (markAttendance (Some u) hook studentId st w).2 in
  attendance (view w') !! studentId =
    Some (mkRecord st (toISOString hook (S (clock w))) (id u)) ∧
  requests w' = (requests w ++ [req])%list.
Proof.
  intros Hsel req Hok w'. subst w'. rewrite markAttendance_run, Hsel. simpl.
  fold req. rewrite Hok. simpl. by rewrite lookup_insert_eq.
Qed.

Lemma markAttendance_stores_witness :
  let u := mkViewUser (Some "Teacher") "u7" in
  let w' := (markAttendance (Some u) accepting_hook "s2" Present marking_world).2 in
  attendance (view w') !! "s2" = Some (mkRecord Present "2024-01-01T09:00:00.000Z" "u7").
Proof.
  intros u w'.
  by destruct (markAttendance_stores accepting_hook u class_9A "s2" Present
                 marking_world eq_refl eq_refl) as [Hstored _].
Defined.

(** A mark that cannot be written changes no record: without a selected
    class or a user no request is issued at all, and a write that is rejected
    or answered with a false flag is issued once and then dropped. *)
Theorem markAttendance_failure_keeps_map (user : option ViewUser) (hook : Hook)
    (studentId : string) (st : Status) (w : ViewWorld) :
  let w' := (markAttendance user hook studentId st w).2 in
  (selectedClass (view w) = None ∨ user = None →
   attendance (view w') = attendance (view w) ∧ requests w' = requests w) ∧
  (∀ u cls, user = Some u → selectedClass (view w) = Some cls →
     let req := mark_request u cls (attendanceDate (view w)) studentId st in
     resolved_ok (callApi_mark hook req) = false →
     attendance (view w') = attendance (view w) ∧
     requests w' = (requests w ++ [req])%list).
Proof.
  intros w'. subst w'. rewrite markAttendance_run. split.
  - intros [-> | ->]; [done|]. by destruct (selectedClass (view w)).
  - intros u cls -> -> req Hfail. simpl. fold req. by rewrite Hfail.
Qed.

(** ** Marking everyone present *)

(** The requests a loop over [l] issues, when it can issue any. *)
Lemma mark_loop (user : option ViewUser) (hook : Hook) (l : list Student.t)
    (w : ViewWorld) :
  let run := for_of l (λ student, markAttendance user hook (Student._id student) Present) w in
  run.1 = Normal () ∧
  students (view run.2) = students (view w) ∧
  selectedClass (view run.2) = selectedClass (view w) ∧
  (∀ k, k ∉ Student._id <$> l →
        attendance (view run.2) !! k = attendance (view w) !! k) ∧
  (∀ k r, attendance (view run.2) !! k = Some r →
          attendance (view w) !! k = Some r ∨
          (k ∈ Student._id <$> l ∧ status r = Present)) ∧
  requests run.2 =
    (requests w ++
     match selectedClass (view w), user with
     | Some cls, Some u =>
         (λ student, mark_request u cls (attendanceDate (view w))
                                  (Student._id student) Present) <$> l
     | _, _ => []
     end)%list.
Proof.
  revert w. induction l as [|student l IH]; intros w; simpl.
  - repeat split; try done.
    + intros k r Hk. by left.
    + destruct (selectedClass (view w)), user; by rewrite app_nil_r.
  - unfold mbind, Js_bind, js_bind. rewrite markAttendance_run.
    set (w1 := match selectedClass (view w), user with
               | Some cls, Some u => _
               | _, _ => _
               end).
    destruct (IH w1) as (Hrun & Hst & Hsel & Hout & Hin & Hreq).
    assert (students (view w1) = students (view w) ∧
            selectedClass (view w1) = selectedClass (view w) ∧
            attendanceDate (view w1) = attendanceDate (view w)) as (Hst1 & Hsel1 & Hdate1).
    { unfold w1. by destruct (selectedClass (view w)) eqn:Hselw, user. }
    assert (∀ k, k ≠ Student._id student →
                 attendance (view w1) !! k = attendance (view w) !! k) as Hframe.
    { intros k Hk. unfold w1.
      destruct (selectedClass (view w)) eqn:Hselw, user; simpl; try done.
      destruct (resolved_ok _); [|done]. by rewrite lookup_insert_ne. }
    assert (∀ r, attendance (view w1) !! Student._id student = Some r →
                 attendance (view w) !! Student._id student = Some r ∨
                 status r = Present) as Hhere.
    { intros r. unfold w1.
      destruct (selectedClass (view w)) eqn:Hselw, user; simpl; try by left.
      destruct (resolved_ok _); [|by left].
      rewrite lookup_insert_eq. intros [= <-]. by right. }
    assert (requests w1 =
            (requests w ++
             match selectedClass (view w), user with
             | Some cls, Some u =>
                 [mark_request u cls (attendanceDate (view w)) (Student._id student) Present]
             | _, _ => []
             end)%list) as Hreq1.
    { unfold w1.
      destruct (selectedClass (view w)) eqn:Hselw, user; simpl; by rewrite ?app_nil_r. }
    repeat split.
    + done.
    + congruence.
    + congruence.
    + intros k Hk. apply not_elem_of_cons in Hk as [Hne Hl].
      by rewrite Hout, Hframe.
    + intros k r Hk. destruct (Hin k r Hk) as [Hw1 | [Hl Hp]].
      * destruct (decide (k = Student._id student)) as [-> | Hne].
        -- destruct (Hhere r Hw1) as [?|?]; [by left|].
           right. split; [apply list_elem_of_here | done].
        -- left. by rewrite <- Hframe.
      * right. split; [by apply list_elem_of_further | done].
    + rewrite Hreq, Hsel1, Hdate1, Hreq1.
      destruct (selectedClass (view w)) as [cls|], user as [u|]; simpl;
        rewrite <- ?app_assoc, ?app_nil_r; done.
Qed.

Lemma unmarkedStudents_spec (s : ViewState) (student : Student.t) :
  student ∈ unmarkedStudents s ↔
  student ∈ students s ∧ attendance s !! Student._id student = None ∧
  inherited (attendanceProto s) (Student._id student) = false.
Proof.
  unfold unmarkedStudents.
  by rewrite !list_elem_of_In, filter_In, negb_true_iff, has_member_false.
Qed.

(** [markAllPresent] is its loop between two [setSaving]. *)
Lemma markAllPresent_run (user : option ViewUser) (hook : Hook) (w : ViewWorld) :
  let w0 := mkViewWorld (with_saving true (view w)) (requests w) (clock w) in
  let w1 := (for_of (unmarkedStudents (view w))
               (λ student, markAttendance user hook (Student._id student) Present) w0).2 in
  markAllPresent user hook w =
  (Normal (), mkViewWorld (with_saving false (view w1)) (requests w1) (clock w1)).
Proof.
  intros w0 w1. subst w1.
  destruct (mark_loop user hook (unmarkedStudents (view w)) w0) as (Hrun & _).
  unfold markAllPresent, try_finally, try_catch, setSaving, setView, modify, gets.
  unfold mbind, Js_bind, js_bind. simpl.
  fold (unmarkedStudents (view w)). fold (with_saving true (view w)). fold w0.
  destruct (for_of _ _ w0) as [r w1]. simpl in *. by subst r.
Qed.

(** Whatever the write calls answer, [markAllPresent] completes normally with
    [saving] off and the roster untouched; it never changes a record that was
    already in the map, and every record it adds is a "present" record of a
    roster student who had none. *)
Theorem markAllPresent_only_adds_present (user : option ViewUser) (hook : Hook)
    (w : ViewWorld) :
  let run := markAllPresent user hook w in
  run.1 = Normal () ∧
  saving (view run.2) = false ∧
  students (view run.2) = students (view w) ∧
  (∀ k r, attendance (view w) !! k = Some r →
          attendance (view run.2) !! k = Some r) ∧
  (∀ k r, attendance (view run.2) !! k = Some r →
          attendance (view w) !! k = Some r ∨
          (status r = Present ∧ attendance (view w) !! k = None ∧
           ∃ student, student ∈ students (view w) ∧ Student._id student = k)).
Proof.
  intros run. subst run. rewrite markAllPresent_run.
  set (w0 := mkViewWorld _ (requests w) (clock w)).
  destruct (mark_loop user hook (unmarkedStudents (view w)) w0)
    as (_ & Hst & _ & Hout & Hin & _).
  simpl. repeat split; try done.
  - intros k r Hk. rewrite Hout; [done|].
    intros (student & -> & (_ & Hnone & _)%unmarkedStudents_spec)%list_elem_of_fmap.
    congruence.
  - intros k r Hk. destruct (Hin k r Hk) as [?|[Hl Hp]]; [by left|].
    apply list_elem_of_fmap in Hl
      as (student & -> & (Hs & Hnone & _)%unmarkedStudents_spec).
    right. repeat split; try done. by exists student.
Qed.

(** With a user and a selected class, [markAllPresent] issues exactly one
    write per unmarked roster student, in roster order, each asking for
    "present" on the selected class and date, whether or not earlier writes
    succeeded. *)
Theorem markAllPresent_requests (hook : Hook) (u : ViewUser) (cls : Class.t)
    (w : ViewWorld) :
  selectedClass (view w) = Some cls →
  requests (markAllPresent (Some u) hook w).2 =
  (requests w ++
   ((λ student, mark_request u cls (attendanceDate (view w)) (Student._id student) Present)
      <$> unmarkedStudents (view w)))%list.
Proof.
  intros Hsel. rewrite markAllPresent_run.
  set (w0 := mkViewWorld _ (requests w) (clock w)).
  destruct (mark_loop (Some u) hook (unmarkedStudents (view w)) w0)
    as (_ & _ & _ & _ & _ & Hreq).
  simpl. rewrite Hreq. simpl. by rewrite Hsel.
Qed.

Lemma markAllPresent_requests_witness :
  let u := mkViewUser (Some "Teacher") "u7" in
  let w' := (markAllPresent (Some u) rejecting_hook marking_world).2 in
  body_studentId <$> omap body (requests w') = ["s1"; "s3"] ∧
  attendance (view w') = marks.
Proof.
  intros u w'. split.
  - unfold w'. by rewrite (markAllPresent_requests rejecting_hook u class_9A marking_world eq_refl).
  - by vm_compute.
Defined.

(** A loop of marks leaves the attendance object with the prototype it had,
    or with the ordinary one. *)
Lemma mark_loop_proto (user : option ViewUser) (hook : Hook) (l : list Student.t)
    (w : ViewWorld) :
  let run := for_of l (λ student, markAttendance user hook (Student._id student) Present) w in
  attendanceProto (view run.2) = attendanceProto (view w) ∨
  attendanceProto (view run.2) = None.
Proof.
  revert w. induction l as [|student l IH]; intros w; simpl; [by left|].
  unfold mbind, Js_bind, js_bind. rewrite markAttendance_run.
  set (w1 := match selectedClass (view w), user with
             | Some cls, Some u => _
             | _, _ => _
             end).
  assert (attendanceProto (view w1) = attendanceProto (view w) ∨
          attendanceProto (view w1) = None) as Hstep.
  { unfold w1. destruct (selectedClass (view w)), user; simpl; try by left.
    destruct (resolved_ok _); [by right | by left]. }
  destruct (IH w1) as [Hrest | Hrest]; [|by right].
  rewrite Hrest. exact Hstep.
Qed.

(** Once every write has succeeded, every roster id reads as marked. *)
Lemma markAllPresent_all_marked (hook : Hook) (u : ViewUser) (cls : Class.t)
    (w : ViewWorld) :
  selectedClass (view w) = Some cls →
  writes_succeed hook →
  attendanceProto (view w) = None →
  let w1 := (markAllPresent (Some u) hook w).2 in
  students (view w1) = students (view w) ∧
  saving (view w1) = false ∧
  attendanceProto (view w1) = None ∧
  ∀ student, student ∈ students (view w) →
             has_member (attendance (view w1)) None (Student._id student) = true.
Proof.
  intros Hsel Hwrites Hproto w1. subst w1. rewrite markAllPresent_run.
  set (w0 := mkViewWorld _ (requests w) (clock w)).
  destruct (mark_each_present u hook cls Hwrites (unmarkedStudents (view w)) w0 Hsel)
    as (_ & _ & Hst & Hin & Hout).
  destruct (mark_loop_proto (Some u) hook (unmarkedStudents (view w)) w0) as [Hp | Hp].
  all: simpl; repeat split; try done; try (by rewrite Hp).
  all: intros student Hstudent; unfold has_member.
  all: destruct (inherited None (Student._id student)) eqn:Hinh;
         [by rewrite orb_true_r | rewrite orb_false_r].
  all: apply bool_decide_eq_true.
  all: destruct (attendance (view w) !! Student._id student) as [r|] eqn:Hprior.
  all: try (rewrite Hout; [unfold w0; simpl; by rewrite Hprior|];
            intros (other & Hid & (_ & Hnone & _)%unmarkedStudents_spec)%list_elem_of_fmap;
            rewrite Hid in Hprior; congruence).
  all: destruct (Hin (Student._id student)) as (r & -> & _); [|by eexists];
       apply list_elem_of_fmap; exists student; split; [done|];
       apply unmarkedStudents_spec; by rewrite Hproto.
Qed.



(** A re-parented attendance object loses its parent at the first mark, so
    an id it used to inherit is only found unmarked on the second run. *)
Example markAllPresent_twice_reparented :
  let u := mkViewUser (Some "Teacher") "u7" in
  let w := mkViewWorld
             (mkViewState [class_9A] (Some class_9A) "2024-01-01"
                [Student.mk "status" None; Student.mk "s1" None] ∅ false false
                (Some (mkRecord Present "08:00" "u7")))
             [] 0 in
  let w1 := (markAllPresent (Some u) accepting_hook w).2 in
  let w2 := (markAllPresent (Some u) accepting_hook w1).2 in
  body_studentId <$> omap body (requests w1) = ["s1"] ∧
  body_studentId <$> omap body (requests w2) = ["s1"; "status"].
Proof. by vm_compute. Qed.

(** ** The count on the button *)

Lemma filter_students_ids (m : gmap string AttendanceRecord) (l : list Student.t) :
  length (List.filter (λ student, negb (bool_decide (is_Some (m !! Student._id student)))) l) +
  length (filter (λ k, is_Some (m !! k)) (Student._id <$> l)) = length l.
Proof.
  induction l as [|student l IH]; [done|].
  rewrite fmap_cons, filter_cons. simpl.
  destruct (decide (is_Some (m !! Student._id student))) as [Hs|Hs].
  - rewrite bool_decide_eq_true_2 by done. simpl. lia.
  - rewrite bool_decide_eq_false_2 by done. simpl. lia.
Qed.

Lemma Object_keys_spec (m : gmap string AttendanceRecord) (k : string) :
  k ∈ Object_keys m ↔ is_Some (m !! k).
Proof.
  unfold Object_keys. rewrite list_elem_of_fmap. split.
  - intros ([k' r] & -> & Hin). apply elem_of_map_to_list in Hin. by exists r.
  - intros [r Hr]. exists (k, r). split; [done|]. by apply elem_of_map_to_list.
Qed.

(** When the roster has no repeated id, every record belongs to a roster
    student and no roster id reads as an inherited property of the attendance
    object, the [unmarked] statistic (the count shown on the button) is the
    number of students [markAllPresent] will iterate over; in particular it is
    not negative. *)
Theorem unmarked_counts_students (s : ViewState) :
  NoDup (Student._id <$> students s) →
  (∀ k, is_Some (attendance s !! k) → k ∈ Student._id <$> students s) →
  (∀ student, student ∈ students s →
              inherited (attendanceProto s) (Student._id student) = false) →
  unmarked (getAttendanceStats s) = Z.of_nat (length (unmarkedStudents s)).
Proof.
  intros Hnodup Hkeys Hown. unfold getAttendanceStats, unmarkedStudents. simpl.
  rewrite (List.filter_ext_in _
             (λ student, negb (bool_decide (is_Some (attendance s !! Student._id student))))).
  2: { intros student Hin%list_elem_of_In. unfold has_member.
       by rewrite (Hown student Hin), orb_false_r. }
  pose proof (filter_students_ids (attendance s) (students s)) as Hsplit.
  assert (Object_keys (attendance s) ≡ₚ
          filter (λ k, is_Some (attendance s !! k)) (Student._id <$> students s)) as Hperm.
  { apply NoDup_Permutation.
    - apply NoDup_fst_map_to_list.
    - by apply NoDup_filter.
    - intros k. rewrite Object_keys_spec, list_elem_of_filter.
      split; [intros Hs; split; [done | by apply Hkeys] | by intros [Hs _]]. }
  rewrite (Permutation_length Hperm). lia.
Qed.

Lemma unmarked_counts_students_witness :
  unmarked (getAttendanceStats (view marking_world)) = 2%Z.
Proof.
  rewrite unmarked_counts_students.
  - reflexivity.
  - simpl. repeat (apply NoDup_cons; split;
      [intros Hin;
       repeat (apply elem_of_cons in Hin as [Hin|Hin]; [discriminate|]);
       by apply elem_of_nil in Hin|]).
    apply NoDup_nil_2.
  - intros k [r Hr]. simpl in Hr. unfold marks in Hr.
    apply lookup_insert_Some in Hr as [[<- _]|[_ Hr]]; [|by rewrite lookup_empty in Hr].
    simpl. apply list_elem_of_further, list_elem_of_here.
  - intros student Hin. simpl in Hin.
    repeat (apply elem_of_cons in Hin as [-> | Hin]; [reflexivity|]).
    by apply elem_of_nil in Hin.
Defined.

(** With roster ids that name inherited members the button shows more
    students than [markAllPresent] iterates over. *)
Example unmarked_overcounts :
  unmarked (getAttendanceStats (view inherited_world)) = 4%Z ∧
  length (unmarkedStudents (view inherited_world)) = 1.
Proof. by vm_compute. Qed.

(** A record left over from another roster makes the count negative. *)
Example unmarked_negative :
  unmarked (getAttendanceStats
              (mkViewState [] None "2024-01-01" [] marks false false None)) = (-1)%Z.
Proof. by vm_compute. Qed.

(** ** Loading the roster and the attendance map *)

Lemma loadStudents_run (hook : LoadHook) (cls : Class.t) (w : ViewWorld) :
  selectedClass (view w) = Some cls →
  let req := mkRequest ("/api/classes/" ++ Class._id cls ++ "/students") "GET" None in
  loadStudents hook w =
  (Normal (),
   mkViewWorld
     (mkViewState (classes (view w)) (selectedClass (view w)) (attendanceDate (view w))
        (roster_after (callApi_students hook req) (students (view w)))
        (attendance (view w)) false (saving (view w)) (attendanceProto (view w)))
     (requests w ++ [req]) (S (clock w))).
Proof.
  intros Hsel req. unfold loadStudents, setStudents, roster_after. view_unfold.
  rewrite Hsel. simpl. fold req.
  by destruct (callApi_students hook req) as [[[] d msg]|e]; simpl; rewrite ?Hsel.
Qed.

(** With a class selected, [loadStudents] issues one request for that
    class's students and always ends with [loading] off.  A successful answer
    replaces the roster by its data (by nothing when the data is missing);
    a rejected or unsuccessful one keeps the roster.  The attendance map is
    never touched. *)
Theorem loadStudents_effect (hook : LoadHook) (cls : Class.t) (w : ViewWorld) :
  selectedClass (view w) = Some cls →
  let req := mkRequest ("/api/classes/" ++ Class._id cls ++ "/students") "GET" None in
  let run := loadStudents hook w in
  run.1 = Normal () ∧
  requests run.2 = (requests w ++ [req])%list ∧
  loading (view run.2) = false ∧
  students (view run.2) = roster_after (callApi_students hook req) (students (view w)) ∧
  attendance (view run.2) = attendance (view w) ∧
  selectedClass (view run.2) = Some cls.
Proof.
  intros Hsel req run. subst run.
  by rewrite (loadStudents_run hook cls w Hsel).
Qed.

Lemma loadStudents_effect_witness :
  let hook := mkLoadHook (λ _, Throw (new_Error "offline"))
                         (λ _, Throw (new_Error "offline")) in
  let run := loadStudents hook marking_world in
  requests run.2 = [mkRequest "/api/classes/c1/students" "GET" None] ∧
  students (view run.2) = roster.
Proof.
  intros hook run.
  destruct (loadStudents_effect hook class_9A marking_world eq_refl)
    as (_ & Hreq & _ & Hst & _).
  by split.
Defined.

(** What [forEach_record] builds: for each student id other than
    [__proto__], the entry of the last record about that student; and as the
    inherited record, the entry of the last record about [__proto__]. *)
Lemma forEach_record_lookup (data : list ServerRecord)
    (m0 m : gmap string AttendanceRecord) (p0 p : option AttendanceRecord) :
  forEach_record data m0 p0 = Normal (m, p) →
  (∀ k, k ≠ "__proto__" →
        m !! k = match last (filter (record_for k) data) with
                 | Some record => Some (to_attendance record)
                 | None => m0 !! k
                 end) ∧
  m !! "__proto__" = m0 !! "__proto__" ∧
  p = match last (filter (record_for "__proto__") data) with
      | Some record => Some (to_attendance record)
      | None => p0
      end.
Proof.
  revert m0 p0. induction data as [|record data IH]; intros m0 p0; simpl.
  - by intros [= <- <-].
  - destruct (record_student record) as [student|] eqn:Hstudent; [|done].
    destruct (String.eqb_spec (Student._id student) "__proto__") as [Hid|Hid];
      intros Hrest; destruct (IH _ _ Hrest) as (Hown & Hsetter & Hproto);
      clear IH Hrest.
    + split; [|split].
      * intros k Hk. rewrite (Hown k Hk), filter_cons.
        destruct (decide (record_for k record)) as [(s' & Hs' & Hk')|Hne]; [|done].
        congruence.
      * done.
      * rewrite Hproto, filter_cons.
        destruct (decide (record_for "__proto__" record)) as [?|Hne].
        -- rewrite last_cons.
           by destruct (last (filter (record_for "__proto__") data)).
        -- destruct Hne. by exists student.
    + split; [|split].
      * intros k Hk. rewrite (Hown k Hk), filter_cons.
        destruct (decide (record_for k record)) as [(s' & Hs' & Hk')|Hne].
        -- rewrite last_cons.
           destruct (last (filter (record_for k) data)); [done|].
           assert (s' = student) as -> by congruence.
           by rewrite <- Hk', lookup_insert_eq.
        -- destruct (last (filter (record_for k) data)); [done|].
           rewrite lookup_insert_ne; [done|].
           intros Heq. apply Hne. by exists student.
      * by rewrite Hsetter, lookup_insert_ne.
      * rewrite Hproto, filter_cons.
        destruct (decide (record_for "__proto__" record)) as [(s' & Hs' & Heq)|Hne];
          [|done].
        congruence.
Qed.

Lemma forEach_record_total (data : list ServerRecord)
    (m0 : gmap string AttendanceRecord) (p0 : option AttendanceRecord) :
  Forall (λ record, is_Some (record_student record)) data →
  ∃ built, forEach_record data m0 p0 = Normal built.
Proof.
  revert m0 p0. induction data as [|record data IH]; intros m0 p0 Hall; simpl.
  - by eexists.
  - apply Forall_cons in Hall as [[student ->] Hall].
    destruct (String.eqb _ _); by apply IH.
Qed.

Lemma forEach_record_throws (data : list ServerRecord)
    (m0 : gmap string AttendanceRecord) (p0 : option AttendanceRecord) :
  Exists (λ record, record_student record = None) data →
  ∃ e, forEach_record data m0 p0 = Throw e.
Proof.
  revert m0 p0. induction data as [|record data IH]; intros m0 p0 Hex; simpl.
  - by apply Exists_nil in Hex.
  - destruct (record_student record) as [student|] eqn:Hstudent; [|by eexists].
    apply Exists_cons in Hex as [Hex|Hex]; [congruence|].
    destruct (String.eqb _ _); by apply IH.
Qed.

Lemma loadExistingAttendance_run (hook : LoadHook) (cls : Class.t) (w : ViewWorld) :
  selectedClass (view w) = Some cls →
  let req := mkRequest ("/api/attendance/class/" ++ Class._id cls ++ "/date/" ++
                        attendanceDate (view w)) "GET" None in
  let loaded :=
    match callApi_attendance hook req with
    | Normal response =>
        match Response.success response, Response.data response with
        | true, Some data =>
            match forEach_record data ∅ None with
            | Normal built => built
            | Throw _ => (∅, None)
            end
        | _, _ => (∅, None)
        end
    | Throw _ => (∅, None)
    end in
  loadExistingAttendance hook w =
  (Normal (),
   mkViewWorld
     (mkViewState (classes (view w)) (selectedClass (view w)) (attendanceDate (view w))
        (students (view w)) loaded.1 (loading (view w)) (saving (view w)) loaded.2)
     (requests w ++ [req]) (S (clock w))).
Proof.
  intros Hsel req loaded. subst loaded.
  unfold loadExistingAttendance, setAttendanceObject. view_unfold.
  rewrite Hsel. simpl. fold req.
  destruct (callApi_attendance hook req) as [[[] [data|] msg]|e]; simpl;
    rewrite ?Hsel; try done.
  by destruct (forEach_record data ∅ None); simpl; rewrite ?Hsel.
Qed.

(** With a class selected and a successful answer whose records all carry
    their student, [loadExistingAttendance] replaces the attendance map: a
    student id other than [__proto__] maps to the last record about that
    student, and to nothing when there is none.  Nothing of the previous map
    survives.  A record about the id [__proto__] adds no entry: the last such
    record becomes the object the new map inherits from. *)
Theorem loadExistingAttendance_replaces (hook : LoadHook) (cls : Class.t)
    (w : ViewWorld) (response : Response.t (list ServerRecord))
    (data : list ServerRecord) :
  selectedClass (view w) = Some cls →
  callApi_attendance hook
    (mkRequest ("/api/attendance/class/" ++ Class._id cls ++ "/date/" ++
                attendanceDate (view w)) "GET" None) = Normal response →
  Response.success response = true →
  Response.data response = Some data →
  Forall (λ record, is_Some (record_student record)) data →
  let run := loadExistingAttendance hook w in
  run.1 = Normal () ∧
  (∀ k, k ≠ "__proto__" →
        attendance (view run.2) !! k =
        to_attendance <$> last (filter (record_for k) data)) ∧
  attendance (view run.2) !! "__proto__" = None ∧
  attendanceProto (view run.2) =
    to_attendance <$> last (filter (record_for "__proto__") data).
Proof.
  intros Hsel Hcall Hok Hdata Hall run. subst run.
  rewrite (loadExistingAttendance_run hook cls w Hsel), Hcall, Hok, Hdata. simpl.
  split; [done|].
  destruct (forEach_record_total data ∅ None Hall) as [[m p] Hm]. rewrite Hm.
  destruct (forEach_record_lookup data ∅ m None p Hm) as (Hown & Hsetter & Hproto).
  simpl. split; [|split].
  - intros k Hk. rewrite (Hown k Hk).
    destruct (last (filter (record_for k) data)); [done|]. by rewrite lookup_empty.
  - by rewrite Hsetter, lookup_empty.
  - rewrite Hproto. by destruct (last (filter (record_for "__proto__") data)).
Qed.

Lemma loadExistingAttendance_replaces_witness :
  let records :=
    [mkServerRecord (Some (Student.mk "s1" None)) Absent "08:00" "u7";
     mkServerRecord (Some (Student.mk "__proto__" None)) Absent "08:02" "u7";
     mkServerRecord (Some (Student.mk "s1" None)) Present "08:05" "u7"] in
  let run := loadExistingAttendance (loading_hook [] records) marking_world in
  attendance (view run.2) !! "s1" = Some (mkRecord Present "08:05" "u7") ∧
  attendance (view run.2) !! "s2" = None ∧
  attendance (view run.2) !! "__proto__" = None ∧
  attendanceProto (view run.2) = Some (mkRecord Absent "08:02" "u7").
Proof.
  intros records run.
  destruct (loadExistingAttendance_replaces (loading_hook [] records) class_9A
              marking_world (Response.mk true (Some records) None) records
              eq_refl eq_refl eq_refl eq_refl) as (_ & Hmap & Hsetter & Hproto).
  - repeat constructor; by eexists.
  - split; [rewrite Hmap; [reflexivity | done]|].
    split; [rewrite Hmap; [reflexivity | done]|].
    split; [exact Hsetter|].
    etrans; [exact Hproto | reflexivity].
Defined.

(** With a class selected, any answer that cannot be turned into a map (a
    rejection, a false flag, missing data, or one record without its
    student) empties the attendance map, where [loadStudents] would have kept
    the roster. *)
Theorem loadExistingAttendance_failure_clears (hook : LoadHook) (cls : Class.t)
    (w : ViewWorld) :
  selectedClass (view w) = Some cls →
  unusable_records
    (callApi_attendance hook
       (mkRequest ("/api/attendance/class/" ++ Class._id cls ++ "/date/" ++
                   attendanceDate (view w)) "GET" None)) →
  let run := loadExistingAttendance hook w in
  run.1 = Normal () ∧
  attendance (view run.2) = ∅ ∧
  students (view run.2) = students (view w).
Proof.
  intros Hsel Hbad run. subst run.
  rewrite (loadExistingAttendance_run hook cls w Hsel). simpl.
  repeat split.
  unfold unusable_records in Hbad.
  destruct (callApi_attendance hook _) as [[ok [data|] msg]|e]; simpl in *;
    [|by destruct ok|done].
  destruct Hbad as [-> | Hex]; [done|].
  destruct (forEach_record_throws data ∅ None Hex) as [e ->]. by destruct ok.
Qed.

Lemma loadExistingAttendance_failure_clears_witness :
  let records :=
    [mkServerRecord (Some (Student.mk "s1" None)) Present "08:00" "u7";
     mkServerRecord None Absent "08:05" "u7"] in
  attendance (view (loadExistingAttendance (loading_hook [] records) marking_world).2) = ∅.
Proof.
  intros records.
  destruct (loadExistingAttendance_failure_clears (loading_hook [] records) class_9A
              marking_world eq_refl) as (_ & Hempty & _); [|done].
  right. simpl. apply Exists_cons_tl, Exists_cons_hd. done.
Defined.

(** ** The class list and the selection *)

(** Every path through [loadAccessibleClasses]: one fetch, or none. *)
Lemma loadAccessibleClasses_run (user : option ViewUser) (hook : Hook) (w : ViewWorld) :
  (∃ endpoint keep,
     let req := mkRequest endpoint "GET" None in
     loadAccessibleClasses user hook w =
     (Normal (),
      mkViewWorld (classes_after (callApi_classes hook req) keep (view w))
                  (requests w ++ [req]) (S (clock w)))) ∨
  loadAccessibleClasses user hook w =
  (Normal (),
   mkViewWorld
     (mkViewState [] (selectedClass (view w)) (attendanceDate (view w))
                  (students (view w)) (attendance (view w)) false (saving (view w))
                  (attendanceProto (view w)))
     (requests w) (clock w)).
Proof.
  unfold loadAccessibleClasses, classes_after, loaded_view.
  destruct user as [u|]; [|right; by view_unfold].
  unfold user_role_is.
  destruct (bool_decide (role u = Some "InstituteAdmin") ||
            bool_decide (role u = Some "IT")) eqn:Hadmin.
  - left. exists "/api/classes".
    destruct (bool_decide (role u = Some "Teacher")).
    + exists (List.filter (incharge_is u)). view_unfold.
      destruct (callApi_classes hook _) as [[[] d msg]|e]; simpl; try done.
      by destruct (List.filter _ _).
    + exists (λ l, l). view_unfold.
      destruct (callApi_classes hook _) as [[[] d msg]|e]; simpl; try done.
      by destruct (default [] d).
  - destruct (bool_decide (role u = Some "Teacher")).
    + left. exists ("/api/classes/teacher-access/" ++ id u), (List.filter (incharge_is u)).
      view_unfold.
      destruct (callApi_classes hook _) as [[[] d msg]|e]; simpl; try done.
      by destruct (List.filter _ _).
    + right. by view_unfold.
Qed.

(** [loadAccessibleClasses] never throws and ends with [loading] off; it
    never touches the roster or the attendance map.  The selection afterwards
    is the first class of the new list, or else the selection from before.
    A fetch that is rejected or answered with a false flag leaves the class
    list and the selection as they were. *)
Theorem loadAccessibleClasses_selection (user : option ViewUser) (hook : Hook)
    (w : ViewWorld) :
  let run := loadAccessibleClasses user hook w in
  run.1 = Normal () ∧
  loading (view run.2) = false ∧
  students (view run.2) = students (view w) ∧
  attendance (view run.2) = attendance (view w) ∧
  (selectedClass (view run.2) = selectedClass (view w) ∨
   (classes (view run.2) ≠ [] ∧ selectedClass (view run.2) = head (classes (view run.2)))) ∧
  (∀ req, requests run.2 = (requests w ++ [req])%list →
          resolved_ok (callApi_classes hook req) = false →
          classes (view run.2) = classes (view w) ∧
          selectedClass (view run.2) = selectedClass (view w)).
Proof.
  intros run. subst run.
  destruct (loadAccessibleClasses_run user hook w) as [(endpoint & keep & ->) | ->];
    simpl.
  - unfold classes_after, loaded_view.
    split; [done|].
    split; [by destruct (callApi_classes hook _) as [[[] d msg]|e]|].
    split; [by destruct (callApi_classes hook _) as [[[] d msg]|e]|].
    split; [by destruct (callApi_classes hook _) as [[[] d msg]|e]|].
    split.
    + destruct (callApi_classes hook _) as [[[] d msg]|e]; simpl; try by left.
      destruct (keep (default [] d)); [by left | by right].
    + intros req Hreq Hfail. apply app_inv_head in Hreq. injection Hreq as <-.
      by destruct (callApi_classes hook _) as [[[] d msg]|e].
  - split; [done|]. split; [done|]. split; [done|]. split; [done|].
    split; [by left|].
    intros req Hreq. apply (f_equal length) in Hreq.
    rewrite length_app in Hreq. simpl in Hreq. lia.
Qed.

(** A user who has lost access sees an empty class list, yet the selection
    from before stays. *)
Example loadAccessibleClasses_keeps_selection :
  let user := Some (mkViewUser (Some "Student") "u9") in
  let w' := (loadAccessibleClasses user accepting_hook marking_world).2 in
  classes (view w') = [] ∧ selectedClass (view w') = Some class_9A.
Proof. by vm_compute. Qed.

Lemma find_class (value : string) (l : list Class.t) (cls : Class.t) :
  cls ∈ l → Class._id cls = value →
  ∃ found, List.find (λ c, String.eqb (Class._id c) value) l = Some found ∧
           found ∈ l ∧ Class._id found = value.
Proof.
  intros Hin Hid. induction l as [|c l IH]; [by apply elem_of_nil in Hin|].
  simpl. destruct (String.eqb_spec (Class._id c) value) as [Hc|Hc].
  - exists c. split; [done|]. split; [apply list_elem_of_here | done].
  - apply elem_of_cons in Hin as [-> | Hin]; [done|].
    destruct (IH Hin) as (found & ? & ? & ?). exists found.
    split; [done|]. split; [by apply list_elem_of_further | done].
Qed.

(** Without a selected class the two loaders return at once. *)
Lemma loaders_without_class (loads : LoadHook) (w : ViewWorld) :
  selectedClass (view w) = None →
  loadStudents loads w = (Normal (), w) ∧
  loadExistingAttendance loads w = (Normal (), w).
Proof.
  intros Hsel. unfold loadStudents, loadExistingAttendance. view_unfold.
  by rewrite Hsel.
Qed.

(** "Whenever there is a roster, a class is selected" holds of the view the
    component starts from and is kept by every handler: the three loaders,
    [markAttendance], [markAllPresent], a date change, and a class change to
    the id of a listed class. *)
Theorem roster_always_has_class (user : option ViewUser) (hook : Hook)
    (loads : LoadHook) (studentId value : string) (st : Status) :
  roster_has_class empty_view ∧
  keeps roster_has_class (loadAccessibleClasses user hook) ∧
  keeps roster_has_class (loadStudents loads) ∧
  keeps roster_has_class (loadExistingAttendance loads) ∧
  keeps roster_has_class (markAttendance user hook studentId st) ∧
  keeps roster_has_class (markAllPresent user hook) ∧
  keeps roster_has_class (onDateChange value) ∧
  (∀ w cls, cls ∈ classes (view w) → Class._id cls = value →
            roster_has_class (view w) →
            roster_has_class (view (onClassChange value w).2)).
Proof.
  unfold keeps, roster_has_class.
  split; [done|].
  split; [|split; [|split; [|split; [|split; [|split]]]]].
  - intros w Hinv.
    destruct (loadAccessibleClasses_run user hook w) as [(endpoint & keep & ->) | ->];
      simpl; [|done].
    unfold classes_after, loaded_view.
    destruct (callApi_classes hook _) as [[[] d msg]|e]; simpl; try done.
    destruct (keep (default [] d)); [done|]. by eexists.
  - intros w Hinv. destruct (selectedClass (view w)) as [cls|] eqn:Hsel.
    + rewrite (loadStudents_run loads cls w Hsel). simpl. rewrite Hsel. by eexists.
    + destruct (loaders_without_class loads w Hsel) as [-> _]. simpl. by rewrite Hsel.
  - intros w Hinv. destruct (selectedClass (view w)) as [cls|] eqn:Hsel.
    + rewrite (loadExistingAttendance_run loads cls w Hsel). simpl. by rewrite Hsel.
    + destruct (loaders_without_class loads w Hsel) as [_ ->]. simpl. by rewrite Hsel.
  - intros w Hinv. rewrite markAttendance_run.
    by destruct (selectedClass (view w)) eqn:Hsel, user; simpl; rewrite ?Hsel.
  - intros w Hinv. rewrite markAllPresent_run.
    set (w0 := mkViewWorld _ (requests w) (clock w)).
    destruct (mark_loop user hook (unmarkedStudents (view w)) w0)
      as (_ & Hst & Hsel & _).
    simpl. by rewrite Hst, Hsel.
  - intros w Hinv. unfold onDateChange, setAttendanceDate. by view_unfold.
  - intros w cls Hin Hid Hinv _.
    destruct (find_class value (classes (view w)) cls Hin Hid) as (found & Hfound & _).
    unfold onClassChange. view_unfold. rewrite Hfound. by eexists.
Qed.

(** Selecting a value that is no listed class's id clears the selection. *)
Example onClassChange_unknown_value :
  selectedClass (view (onClassChange "c9" marking_world).2) = None.
Proof. by vm_compute. Qed.

(** [loadStudents] and [loadExistingAttendance], which the reload effect
    starts together, write different cells: in either order they leave the
    same view. *)
Theorem loaders_commute (loads : LoadHook) (w : ViewWorld) :
  view ((loadStudents loads ;; loadExistingAttendance loads) w).2 =
  view ((loadExistingAttendance loads ;; loadStudents loads) w).2.
Proof.
  unfold mbind, Js_bind, js_bind.
  destruct (selectedClass (view w)) as [cls|] eqn:Hsel.
  - rewrite (loadStudents_run loads cls w Hsel),
            (loadExistingAttendance_run loads cls w Hsel).
    erewrite (loadExistingAttendance_run loads cls) by exact Hsel.
    erewrite (loadStudents_run loads cls) by exact Hsel.
    reflexivity.
  - destruct (loaders_without_class loads w Hsel) as [Hs Ha].
    by rewrite Hs, Ha, Hs.
Qed.

(** * The dashboard header *)

(** For the roles "InstituteAdmin", "Principal", "IT" and "Receptionist" the
    header shows its own heading and the [title] and [subtitle] props have no
    effect; for every other role, and without a role, it shows the props, or
    their defaults when they are left out. *)
Theorem getRoleSpecificContent_props (title subtitle title' subtitle' userRole : option string) :
  let named := ["InstituteAdmin"; "Principal"; "IT"; "Receptionist"] in
  ((∃ r, userRole = Some r ∧ r ∈ named) →
   getRoleSpecificContent title subtitle userRole =
   getRoleSpecificContent title' subtitle' userRole) ∧
  ((∀ r, userRole = Some r → r ∉ named) →
   getRoleSpecificContent title subtitle userRole =
   (default "Dashboard" title, default "Manage operations and daily activities" subtitle)).
Proof.
  intros named. split.
  - intros (r & -> & Hin). unfold named in Hin.
    repeat (apply elem_of_cons in Hin as [-> | Hin]; [reflexivity|]).
    by apply elem_of_nil in Hin.
  - intros Hout. unfold getRoleSpecificContent.
    assert (∀ r, r ∈ named → String.eqb (default "" userRole) r = false) as Hne.
    { intros r Hr. apply String.eqb_neq. destruct userRole as [role|]; simpl.
      - intros ->. by apply (Hout r).
      - intros <-. unfold named in Hr.
        repeat (apply elem_of_cons in Hr as [Hr | Hr]; [discriminate|]).
        by apply elem_of_nil in Hr. }
    rewrite !Hne; [done|..]; unfold named;
      repeat first [apply list_elem_of_here | apply list_elem_of_further].
Qed.

Example header_for_teacher :
  getRoleSpecificContent (Some "Teacher Dashboard") None (Some "Teacher") =
  ("Teacher Dashboard", "Manage operations and daily activities").
Proof. reflexivity. Qed.

Example header_for_principal :
  getRoleSpecificContent (Some "Teacher Dashboard") None (Some "Principal") =
  ("Principal Dashboard", "Statistical overview and institutional performance metrics").
Proof. reflexivity. Qed.

(** * The statistics cards *)

Lemma shows_entry (x : option StatsCards.LevelData) (level : option Z) :
  StatsCards.shows_nonProgressed (StatsCards.notProgressed_or_0 x) level = true ↔
  ∃ l n, level = Some l ∧ (1 < l)%Z ∧
         x ≫= StatsCards.notProgressed = Some n ∧ (0 < n)%Z.
Proof.
  unfold StatsCards.shows_nonProgressed, StatsCards.notProgressed_or_0.
  rewrite andb_true_iff. destruct level as [l|]; simpl.
  - rewrite !Z.ltb_lt. destruct (x ≫= StatsCards.notProgressed) as [n|].
    + destruct (Z.eqb_spec n 0) as [-> | Hn].
      * split; [lia|]. intros (l' & n' & [= <-] & _ & [= <-] & ?). lia.
      * split; [intros [? ?]; by exists l, n|].
        intros (l' & n' & [= <-] & ? & [= <-] & ?). done.
    + split; [lia|]. by intros (l' & n' & _ & _ & [=] & _).
  - split; [by intros [_ ?]|]. by intros (l & n & [=] & _).
Qed.

(** A card shows its "did not progress" line exactly when the level is above
    1, both progression tables are there, and the card's own entry for that
    level has a positive [notProgressed]: the total card reads the level
    table, the boys and girls cards their gender tables.  In particular the
    total is hidden as well when only the gender tables are missing. *)
Theorem nonProgressed_line_shown (currentData : option StatsCards.CurrentData)
    (level : option Z) :
  let data := StatsCards.getNonProgressionData currentData level in
  let entry (pick : gmap Z StatsCards.LevelData → StatsCards.GenderLevels →
                    option (gmap Z StatsCards.LevelData)) :=
    ∃ d levels genders table l n,
      currentData = Some d ∧
      StatsCards.levelProgression d = Some levels ∧
      StatsCards.genderLevelProgression d = Some genders ∧
      pick levels genders = Some table ∧
      level = Some l ∧ (1 < l)%Z ∧
      table !! l ≫= StatsCards.notProgressed = Some n ∧ (0 < n)%Z in
  (StatsCards.shows_nonProgressed (StatsCards.total data) level = true ↔
   entry (λ levels _, Some levels)) ∧
  (StatsCards.shows_nonProgressed (StatsCards.boys_total data) level = true ↔
   entry (λ _ genders, StatsCards.boys genders)) ∧
  (StatsCards.shows_nonProgressed (StatsCards.girls_total data) level = true ↔
   entry (λ _ genders, StatsCards.girls genders)).
Proof.
  intros data entry. subst data entry.
  assert (∀ l, StatsCards.shows_nonProgressed 0 l = false) as Hzero.
  { by intros [l|]. }
  unfold StatsCards.getNonProgressionData.
  destruct currentData as [[[levels|] [genders|]]|]; simpl.
  - destruct (decide (level = Some 1%Z)) as [-> | Hlevel].
    { simpl. repeat split; try done;
        intros (?&?&?&?&l&?&_&_&_&_&[= <-]&?&_); lia. }
    rewrite bool_decide_eq_false_2 by done. simpl.
    repeat split.
    + intros (l & n & -> & ? & Hn & ?)%shows_entry.
      by exists (StatsCards.mkCurrentData (Some levels) (Some genders)),
                levels, genders, levels, l, n.
    + intros (?&?&?&?&l&n&[= <-]&[= <-]&[= <-]&[= <-]&->&?&?&?).
      apply shows_entry. by exists l, n.
    + intros (l & n & -> & ? & Hn & ?)%shows_entry.
      destruct (StatsCards.boys genders) as [table|] eqn:Htable; [|done].
      by exists (StatsCards.mkCurrentData (Some levels) (Some genders)),
                levels, genders, table, l, n.
    + intros (?&?&?&?&l&n&[= <-]&[= <-]&[= <-]&Htable&->&?&?&?).
      apply shows_entry. exists l, n. by rewrite Htable.
    + intros (l & n & -> & ? & Hn & ?)%shows_entry.
      destruct (StatsCards.girls genders) as [table|] eqn:Htable; [|done].
      by exists (StatsCards.mkCurrentData (Some levels) (Some genders)),
                levels, genders, table, l, n.
    + intros (?&?&?&?&l&n&[= <-]&[= <-]&[= <-]&Htable&->&?&?&?).
      apply shows_entry. exists l, n. by rewrite Htable.
  - rewrite Hzero. repeat split; try done;
      by intros (?&?&?&?&?&?&[= <-]&_&[=]&_).
  - rewrite Hzero. repeat split; try done;
      by intros (?&?&?&?&?&?&[= <-]&[=]&_).
  - rewrite Hzero. repeat split; try done;
      by intros (?&?&?&?&?&?&[= <-]&[=]&_).
  - rewrite Hzero. repeat split; try done;
      by intros (?&?&?&?&?&?&[=]&_).
Qed.
